(** * Request-observability middleware of the two demo services

    A shallow embedding of [api-service-1/index.js] and
    [api-service-2/index.js]: the logging middleware, the route handlers, the
    process-level error loggers, and the part of the Node/Express runtime
    they touch (wall clock, random source, response object, console,
    histogram).

    Conventions.
    - The wall clock, the random source and the peer service are oracles,
      answering by the number of times they were used before ([Env]); the
      clock is any sequence of readings, since [Date.now()] follows the
      system time.
    - A timestamp [JIso t] stands for [new Date(t).toISOString()]; such
      strings are ordered as the instants [t].
    - The console is the list of the objects given to
      [console.log(JSON.stringify(...))], each with the call site that wrote
      it.  What Express prints on stderr is not part of it.
    - Of the response the model keeps the status code, what the native
      [end] put on the wire, and the callbacks it was given; response headers
      (Content-Type, ETag, ...) are left out.
    - Of Express the model has what the services use.  The middleware runs
      first and calls [next()]; one route handler runs, or none matches.
      [res.json] and [res.send] answer a fresh conditional request with 304
      and an empty body, a HEAD request without a body, and hand the native
      [end] a Buffer.  An exception thrown synchronously by a handler that is
      a plain function, and a missing route, go to the final handler.  An
      exception in a timer callback goes to the process
      (['uncaughtException']); the rejection of an [async] handler goes to
      the process (['unhandledRejection']) under Express 4 and to the final
      handler under Express 5 ([express5]).  ['finish'] is emitted once the
      response has ended and the handler gives up control: when it waits for
      a timer or a promise, or returns. *)

From Stdlib Require Import ZArith List String Ascii Bool Lia QArith.
From Stdlib Require Import DecimalString.
Import ListNotations.

Local Open Scope string_scope.
Local Open Scope Z_scope.

Set Implicit Arguments.

(** ** JavaScript numbers in the unit interval

    A binary64 value in [0, 36] is written as an integer count of the smallest
    positive double, 2^-1074; every double is a multiple of it.  Products are
    rounded to 53 significant bits, ties to even, as the hardware does. *)
Module Double.

Definition one : Z := 2 ^ 1074.

(** Round-to-nearest-even of the real [n * 2^-1074] to binary64. *)
Definition round53 (n : Z) : Z :=
  let s := Z.log2 n - 52 in
  if s <=? 0 then n
  else
    let q := n / 2 ^ s in
    let r := n mod 2 ^ s in
    let half := 2 ^ (s - 1) in
    if (half <? r) || ((r =? half) && Z.odd q)
    then (q + 1) * 2 ^ s
    else q * 2 ^ s.

Definition is_double (m : Z) : Prop := 0 <= m /\ round53 m = m.

Definition is_doubleb (m : Z) : bool := (0 <=? m) && (round53 m =? m).

(** What [Math.random()] may return: a double in [0, 1). *)
Definition unit_interval (m : Z) : Prop := is_double m /\ m < one.

Definition unit_intervalb (m : Z) : bool := is_doubleb m && (m <? one).

(** [x * k] for a small integer constant [k]. *)
Definition mul (x k : Z) : Z := round53 (x * k).

Definition add (x y : Z) : Z := round53 (x + y).

(** [Math.floor] of a non-negative double. *)
Definition floor (x : Z) : Z := x / one.

(** The double a decimal literal [num / 10^digits] denotes. *)
Definition of_decimal (num : Z) (digits : Z) : Z :=
  let den := 10 ^ digits in
  let s := Z.log2 (num * one / den) - 52 in
  let scaled := num * one in
  if s <=? 0 then scaled / den
  else
    let unit := den * 2 ^ s in
    let q := scaled / unit in
    let r := scaled mod unit in
    if (unit <? 2 * r) || ((2 * r =? unit) && Z.odd q)
    then (q + 1) * 2 ^ s
    else q * 2 ^ s.

(** Half the distance to the next double, never below the smallest
    subnormal (the [delta] of the radix conversion). *)
Definition half_ulp (m : Z) : Z :=
  Z.max 1 (2 ^ (Z.log2 m - 52) / 2).

End Double.

(** ** [Number.prototype.toString(36)] on [0, 1)

    The digit loop of the runtime's radix conversion: the shortest digit
    string that identifies the double, with the last digit rounded. *)
Module Radix36.

Definition alphabet : list ascii :=
  list_ascii_of_string "0123456789abcdefghijklmnopqrstuvwxyz".

Definition digit_char (d : Z) : ascii :=
  nth (Z.to_nat d) alphabet "0"%char.

(** Carry propagation over the digits written so far (most recent first):
    trailing [z] digits are dropped and the first smaller digit is
    incremented; [None] when the carry reaches the integer part. *)
Fixpoint carry (rev_digits : list Z) : option (list Z) :=
  match rev_digits with
  | [] => None
  | d :: rest => if d + 1 <? 36 then Some (d + 1 :: rest) else carry rest
  end.

(** The [do ... while (fraction >= delta)] loop.  The result is the digit
    list in reverse, or [None] when rounding carried into the integer. *)
Fixpoint digits (fuel : nat) (fraction delta : Z) (acc : list Z)
  : option (list Z) :=
  match fuel with
  | O => Some acc
  | S fuel' =>
      let fraction := Double.mul fraction 36 in
      let delta := Double.mul delta 36 in
      let digit := Double.floor fraction in
      let acc := digit :: acc in
      let fraction := fraction - digit * Double.one in
      if ((Double.one <? 2 * fraction)
          || ((2 * fraction =? Double.one) && Z.odd digit))
         && (Double.one <? Double.add fraction delta)
      then carry acc
      else if delta <=? fraction
           then digits fuel' fraction delta acc
           else Some acc
  end.

Definition buffer_size : nat := 1100.

(** [value.toString(36)] for a double [value] in [0, 1). *)
Definition toString (value : Z) : string :=
  let delta := Double.half_ulp value in
  if delta <=? value then
    match digits buffer_size value delta [] with
    | Some rev_digits =>
        "0." ++ string_of_list_ascii (map digit_char (rev rev_digits))
    | None => "1"
    end
  else "0".

End Radix36.

(** [s.substring(start)]: the characters of [s] from index [start] on. *)
Fixpoint substring_from (start : nat) (s : string) : string :=
  match start, s with
  | O, _ => s
  | S n, EmptyString => EmptyString
  | S n, String _ rest => substring_from n rest
  end.



(** ** Values, requests and the observable state of one request *)

(** The JavaScript values the services log and send. *)
Inductive JVal : Type :=
| JUndefined
| JStr (s : string)
| JNum (n : Z)
| JQuot (q : Q)        (* a quotient of integers, e.g. milliseconds / 1000 *)
| JIso (millis : Z)    (* new Date(millis).toISOString() *)
| JJson (text : string) (* any other value, given by its JSON text *)
| JThis.               (* the response object itself *)

Definition Fields : Type := list (string * JVal).

Definition is_defined (v : JVal) : bool :=
  match v with JUndefined => false | _ => true end.

(** [JSON.stringify(object)] leaves out the properties whose value is
    [undefined]; the event is kept as the list of the remaining ones. *)
Definition json_stringify (object : Fields) : Fields :=
  filter (fun kv => is_defined (snd kv)) object.

Fixpoint field (name : string) (event : Fields) : option JVal :=
  match event with
  | [] => None
  | (k, v) :: rest => if String.eqb k name then Some v else field name rest
  end.

Definition decimal (n : Z) : string := NilZero.string_of_int (Z.to_int n).

(** String conversion inside a template literal; the services interpolate
    strings, integers and, at most, [undefined]. *)
Definition template (v : JVal) : string :=
  match v with
  | JStr s => s
  | JNum n => decimal n
  | _ => "undefined"
  end.

Definition of_option (o : option string) : JVal :=
  match o with Some s => JStr s | None => JUndefined end.

Record Request : Type := {
  method : string;
  url : string;
  ip : option string;
  headers : list (string * string)   (* names in lower case, as Node keeps them *)
}.

Definition lower_char (c : ascii) : ascii :=
  let n := nat_of_ascii c in
  if (Nat.leb 65 n && Nat.leb n 90)%bool then ascii_of_nat (n + 32) else c.

Fixpoint lowercase (s : string) : string :=
  match s with
  | EmptyString => EmptyString
  | String c rest => String (lower_char c) (lowercase rest)
  end.

Fixpoint lookup (name : string) (table : list (string * string))
  : option string :=
  match table with
  | [] => None
  | (k, v) :: rest => if String.eqb k name then Some v else lookup name rest
  end.

(** [req.get(name)]: case-insensitive header lookup. *)
Definition req_get (name : string) (req : Request) : option string :=
  lookup (lowercase name) (headers req).

(** Truthiness of a header value: [undefined] and the empty string are
    falsy. *)
Definition truthy (v : option string) : bool :=
  match v with
  | Some s => negb (String.eqb s EmptyString)
  | None => false
  end.

Definition text_of (v : option string) : string :=
  match v with Some s => s | None => EmptyString end.

(** What a call of [end] is given as its chunk: a string, the Buffer
    holding the UTF-8 bytes of the JSON text of an object or of a string, or
    nothing. *)
Inductive Body : Type :=
| BText (text : string)
| BBufferJson (object : Fields)
| BBufferText (text : string)
| BAbsent.

(** An answer: the status code the native [end] sent, with the chunk and
    the encoding it was given.  (Of the chunk Node writes nothing for a HEAD
    request or a bodiless status.) *)
Record Sent : Type := {
  sentStatus : Z;
  sentChunk : Body;
  sentEncoding : option string
}.

Record Response : Type := {
  statusCode : Z;
  headersSent : bool;
  finished : bool;
  wire : list Sent;            (* the answers sent, oldest first *)
  endCallbacks : list string   (* the callbacks the native end was given *)
}.

Definition fresh_response : Response :=
  {| statusCode := 200; headersSent := false; finished := false; wire := [];
     endCallbacks := [] |}.

(** Which [console.log] call wrote a line: the two of the middleware, one
    of a route handler, or one of the process-level error loggers. *)
Inductive Site : Type := SiteStart | SiteComplete | SiteHandler | SiteProcess.

Definition site_eqb (a b : Site) : bool :=
  match a, b with
  | SiteStart, SiteStart | SiteComplete, SiteComplete
  | SiteHandler, SiteHandler | SiteProcess, SiteProcess => true
  | _, _ => false
  end.

Record LogLine : Type := { site : Site; event : Fields }.

Definition Labels : Type := (string * string * string)%type.

Record Observation : Type := { labels : Labels; seconds : Q }.

(** The part of the process a closure stored on the response can reach. *)
Record Sys : Type := {
  res : Response;
  console : list LogLine;
  histogram : list Observation;
  clockReads : nat;     (* how often the wall clock was read *)
  randomDraws : nat;    (* how often Math.random() was called *)
  remoteCalls : nat
}.

Definition State (S A : Type) : Type := S -> A * S.

Definition ret {S A} (a : A) : State S A := fun s => (a, s).

Definition bind {S A B} (c : State S A) (k : A -> State S B) : State S B :=
  fun s => let (a, s') := c s in k a s'.

Notation "x <- c ;; k" := (bind c (fun x => k))
  (at level 61, c at next level, right associativity).
Notation "c ;; k" := (bind c (fun _ => k))
  (at level 61, right associativity).

Definition Act (A : Type) : Type := State Sys A.

(** [res.end] as a value: it takes a chunk, an encoding and a callback (a
    function, known here by a name only) and returns the response. *)
Definition EndFunction : Type :=
  Body -> option string -> option string -> Act JVal.

(** The response carries its [end] method and its [finish] listeners; the
    middleware replaces the one or adds to the other. *)
Record World : Type := {
  sys : Sys;
  resEnd : EndFunction;
  finishListeners : list (Act unit);
  finishEmitted : bool
}.

Definition M (A : Type) : Type := State World A.

Definition lift {A} (c : Act A) : M A :=
  fun w =>
    let (a, s) := c (sys w) in
    (a, {| sys := s; resEnd := resEnd w;
           finishListeners := finishListeners w;
           finishEmitted := finishEmitted w |}).

(** Outcome of [axios.get]: it resolves for a 2xx answer and rejects
    otherwise. *)
Record RemoteResponse : Type := {
  status : Z;
  data : JVal;          (* response.data: a string, or the parsed JSON *)
  dataJson : string;    (* JSON.stringify(response.data) *)
  jsonLength : Z        (* JSON.stringify(response.data).length *)
}.

Record RemoteError : Type := {
  errMessage : string;
  errCode : option string;
  errStack : string
}.

(** The environment of one process: what the clock, the random source and
    the network answer at their n-th use, and the values computed outside
    the modelled code. *)
Record Env : Type := {
  dateNow : nat -> Z;
  mathRandom : nat -> Z;
  axiosGet : nat -> RemoteError + RemoteResponse;
  metricsText : string;              (* await register.metrics() *)
  computeSum : JVal;                 (* the sum the /compute loop ends with *)
  express5 : bool;                   (* Express 5, with fresh 2; else Express 4 *)
  etag : Body -> string;             (* the ETag Express computes for a body *)
  etagMatches : string -> string -> bool;
    (* does the list in If-None-Match name this ETag *)
  noCache : string -> bool;          (* does Cache-Control hold no-cache *)
  errorStack : string -> string;     (* the stack of an Error with this message *)
  errorPage : option string -> Z -> Request -> string
    (* the body finalhandler writes for this error, status and request *)
}.

(** ** Handler programs

    A route handler is a tree of the calls it makes into the runtime; the
    continuation of a call receives its result.  [Throw m] is
    [throw new Error(m)].  [AsyncFunction] stands at the head of a handler
    written as an [async] function; [AxiosGet] and [RegisterMetrics] are
    awaited; the continuation of [SetTimeout] is the timer's callback. *)

(** The status codes Node can send.  [res.status(code)] of Express 5 throws
    for any other, and with Express 4 the native [end] does. *)
Definition status_ok (code : Z) : bool := (100 <=? code) && (code <=? 999).

Inductive Effect : Type -> Type :=
| DateNow : Effect Z                               (* Date.now(), new Date() *)
| MathRandom : Effect Z                            (* Math.random() *)
| ConsoleLog (object : Fields) : Effect unit       (* console.log(JSON.stringify(object)) *)
| ResStatus (code : Z) (valid : status_ok code = true) : Effect unit
                                                   (* res.status(code) *)
| ResStatusCode : Effect Z                         (* res.statusCode *)
| ResEnd (chunk : Body) (encoding callback : option string) : Effect JVal
                                                   (* res.end(chunk, encoding, callback) *)
| ReqMethod : Effect string                        (* req.method *)
| ReqFresh (chunk : Body) : Effect bool            (* req.fresh, the ETag of chunk being set *)
| Observe (l : Labels) (value : Q) : Effect unit   (* histogram.labels(...).observe(value) *)
| AxiosGet (target : string) : Effect (RemoteError + RemoteResponse)
| SetTimeout (delay : JVal) : Effect unit
| RegisterMetrics : Effect string
| SqrtLoop : Effect JVal
| AsyncFunction : Effect unit.

Inductive Prog (A : Type) : Type :=
| Ret (a : A)
| Throw (message : string)
| Do (X : Type) (e : Effect X) (k : X -> Prog A).

Arguments Throw {A} message.

Notation "x <~ e ;; k" := (Do e (fun x => k))
  (at level 61, e at next level, right associativity).
Notation "'call' e ;; k" := (Do e (fun _ => k))
  (at level 61, e at next level, right associativity).

(** The statuses Express sends without a body. *)
Definition bodiless (code : Z) : bool :=
  (code =? 204) || (code =? 205) || (code =? 304).

(** The end of [res.send(text)], from the point where the text was turned
    into a Buffer and its ETag was set: a fresh request gets status 304; a
    bodiless status empties the chunk; a HEAD request ends the response
    without a chunk, any other with the chunk and no encoding. *)
Definition express_send {A} (buffer : Body) (k : Prog A) : Prog A :=
  let respond : Prog A :=
    code <~ ResStatusCode ;;
    verb <~ ReqMethod ;;
    if String.eqb verb "HEAD" then call ResEnd BAbsent None None ;; k
    else call ResEnd (if bodiless code then BText EmptyString else buffer)
                     None None ;; k in
  isFresh <~ ReqFresh buffer ;;
  if isFresh then call ResStatus 304 eq_refl ;; respond else respond.

(** [res.json(object)] is [res.send(JSON.stringify(object))]. *)
Definition res_json {A} (object : Fields) (k : Prog A) : Prog A :=
  express_send (BBufferJson (json_stringify object)) k.

Definition res_send {A} (text : string) (k : Prog A) : Prog A :=
  express_send (BBufferText text) k.

(** Where a handler is when it throws: still in the call Express made, in
    an [async] function (a throw rejects its promise), or in a timer
    callback. *)
Inductive Phase : Type := InHandler | InPromise | InTimer.

Definition next_phase {X} (ph : Phase) (e : Effect X) : Phase :=
  match e with
  | AsyncFunction | AxiosGet _ | RegisterMetrics => InPromise
  | SetTimeout _ => InTimer
  | _ => ph
  end.

(** The calls at which the handler gives up control. *)
Definition yields {X} (e : Effect X) : bool :=
  match e with
  | AxiosGet _ | RegisterMetrics | SetTimeout _ => true
  | _ => false
  end.

Inductive Outcome (A : Type) : Type :=
| Finished (a : A)
| Thrown (ph : Phase) (message : string).

Arguments Thrown {A} ph message.

(** An application: its middleware and the two loggers it registers on
    [process]. *)
Record App : Type := {
  use : Request -> M unit -> M unit;
  uncaughtException : string -> Act unit;
  unhandledRejection : string -> Act unit
}.

Section Runtime.

Variable E : Env.

Definition date_now : Act Z := fun s =>
  (dateNow E (clockReads s),
   {| res := res s; console := console s; histogram := histogram s;
      clockReads := S (clockReads s); randomDraws := randomDraws s;
      remoteCalls := remoteCalls s |}).

Definition math_random : Act Z := fun s =>
  (mathRandom E (randomDraws s),
   {| res := res s; console := console s; histogram := histogram s;
      clockReads := clockReads s; randomDraws := S (randomDraws s);
      remoteCalls := remoteCalls s |}).

Definition axios_get (target : string) : Act (RemoteError + RemoteResponse) :=
  fun s =>
  (axiosGet E (remoteCalls s),
   {| res := res s; console := console s; histogram := histogram s;
      clockReads := clockReads s; randomDraws := randomDraws s;
      remoteCalls := S (remoteCalls s) |}).

Definition console_log (from : Site) (object : Fields) : Act unit := fun s =>
  (tt,
   {| res := res s;
      console := console s ++ [{| site := from; event := json_stringify object |}];
      histogram := histogram s;
      clockReads := clockReads s; randomDraws := randomDraws s;
      remoteCalls := remoteCalls s |}).

Definition observe (l : Labels) (value : Q) : Act unit := fun s =>
  (tt,
   {| res := res s; console := console s;
      histogram := histogram s ++ [{| labels := l; seconds := value |}];
      clockReads := clockReads s; randomDraws := randomDraws s;
      remoteCalls := remoteCalls s |}).

Definition with_res (r : Response) (s : Sys) : Sys :=
  {| res := r; console := console s; histogram := histogram s;
     clockReads := clockReads s; randomDraws := randomDraws s;
     remoteCalls := remoteCalls s |}.

Definition get_status : Act Z := fun s => (statusCode (res s), s).

(** [res.statusCode = code], the assignment.  [res.status(code)] is this
    assignment for a code that passes [status_ok]. *)
Definition set_status (code : Z) : Act unit := fun s =>
  (tt, with_res {| statusCode := code; headersSent := headersSent (res s);
                   finished := finished (res s); wire := wire (res s);
                   endCallbacks := endCallbacks (res s) |} s).

Definition given (callback : option string) : list string :=
  match callback with Some c => [c] | None => [] end.

(** The [end] of [http.ServerResponse]: the first call sends the status
    and the chunk; later calls send nothing.  A callback is kept to be
    called once the response has finished.  It returns the response. *)
Definition node_end : EndFunction :=
  fun chunk encoding callback s =>
  if finished (res s) then
    match callback with
    | None => (JThis, s)
    | Some c =>
        (JThis,
         with_res {| statusCode := statusCode (res s);
                     headersSent := headersSent (res s);
                     finished := true;
                     wire := wire (res s);
                     endCallbacks := endCallbacks (res s) ++ [c] |} s)
    end
  else (JThis,
        with_res {| statusCode := statusCode (res s);
                    headersSent := true; finished := true;
                    wire := wire (res s) ++
                            [{| sentStatus := statusCode (res s);
                                sentChunk := chunk;
                                sentEncoding := encoding |}];
                    endCallbacks := endCallbacks (res s) ++ given callback |} s).

(** A request as the server hands it to the first middleware. *)
Definition accept (s : Sys) : World :=
  {| sys := with_res fresh_response s;
     resEnd := node_end;
     finishListeners := [];
     finishEmitted := false |}.

(** [res.end(chunk, encoding, callback)]: whatever function the property
    holds now. *)
Definition res_end (chunk : Body) (encoding callback : option string)
  : M JVal :=
  fun w => lift (resEnd w chunk encoding callback) w.

Definition get_res_end : M EndFunction := fun w => (resEnd w, w).

(** [res.end = f] *)
Definition set_res_end (f : EndFunction) : M unit :=
  fun w => (tt, {| sys := sys w; resEnd := f;
                   finishListeners := finishListeners w;
                   finishEmitted := finishEmitted w |}).

(** [res.on('finish', listener)] *)
Definition on_finish (listener : Act unit) : M unit :=
  fun w => (tt, {| sys := sys w; resEnd := resEnd w;
                   finishListeners := finishListeners w ++ [listener];
                   finishEmitted := finishEmitted w |}).

(** [fresh(reqHeaders, resHeaders)] of the package of that name, for a
    response that has an ETag and no Last-Modified header, as the responses
    of [res.send] here. *)
Definition fresh (hs : list (string * string)) (tag : string) : bool :=
  let modifiedSince := lookup "if-modified-since" hs in
  let noneMatch := lookup "if-none-match" hs in
  let cacheControl := lookup "cache-control" hs in
  let matches :=
    String.eqb (text_of noneMatch) "*" ||
    etagMatches E (text_of noneMatch) tag in
  if negb (truthy modifiedSince) && negb (truthy noneMatch) then false
  else if truthy cacheControl && noCache E (text_of cacheControl) then false
  else if express5 E then
    (* fresh 2: If-None-Match decides alone when it is there *)
    if truthy noneMatch then matches else false
  else
    (* fresh 0.5: both validators have to pass *)
    if truthy noneMatch && negb matches then false
    else if truthy modifiedSince then false
    else true.

(** [req.fresh], read when the response has status [code] and the ETag of
    [chunk]. *)
Definition req_fresh (req : Request) (code : Z) (chunk : Body) : bool :=
  if negb (String.eqb (method req) "GET") &&
     negb (String.eqb (method req) "HEAD") then false
  else if ((200 <=? code) && (code <? 300)) || (code =? 304)
       then fresh (headers req) (etag E chunk)
       else false.

Definition get_fresh (req : Request) (chunk : Body) : Act bool :=
  fun s => (req_fresh req (statusCode (res s)) chunk, s).

Fixpoint run_listeners (ls : list (Act unit)) : Act unit :=
  match ls with
  | [] => ret tt
  | l :: rest => l ;; run_listeners rest
  end.

(** ['finish'] is emitted once, after the response has ended. *)
Definition emit_finish : M unit := fun w =>
  if finished (res (sys w)) && negb (finishEmitted w)
  then (tt, {| sys := snd (run_listeners (finishListeners w) (sys w));
               resEnd := resEnd w;
               finishListeners := finishListeners w;
               finishEmitted := true |})
  else (tt, w).

Definition perform (req : Request) {X} (e : Effect X) : M X :=
  match e in Effect X return M X with
  | DateNow => lift date_now
  | MathRandom => lift math_random
  | ConsoleLog object => lift (console_log SiteHandler object)
  | ResStatus code _ => lift (set_status code)
  | ResStatusCode => lift get_status
  | ResEnd chunk encoding callback => res_end chunk encoding callback
  | ReqMethod => ret (method req)
  | ReqFresh chunk => lift (get_fresh req chunk)
  | Observe l value => lift (observe l value)
  | AxiosGet target => lift (axios_get target)
  | SetTimeout _ => ret tt
  | RegisterMetrics => ret (metricsText E)
  | SqrtLoop => ret (computeSum E)
  | AsyncFunction => ret tt
  end.

(** Running a handler from phase [ph].  Where the handler gives up
    control, a response that has ended emits ['finish'] before the handler
    goes on. *)
Fixpoint run (req : Request) {A} (ph : Phase) (p : Prog A) : M (Outcome A) :=
  match p with
  | Ret a => ret (Finished a)
  | Throw m => ret (Thrown ph m)
  | Do e k => fun w =>
      let (_, w0) := (if yields e then emit_finish else ret tt) w in
      let (x, w') := perform req e w0 in
      run req (next_phase ph e) (k x) w'
  end.

(** The status finalhandler gives an error that has none of its own: the
    response's, when that is an error status, else 500. *)
Definition error_status (current : Z) : Z :=
  if (400 <=? current) && (current <=? 599) then current else 500.

(** Express' final handler, for an error ([Some message]) or for a request
    no route matched ([None]): with nothing sent yet it sets the status and
    ends the response with an error page, or without a body for HEAD;
    otherwise it drops the connection. *)
Definition finalhandler (error : option string) (req : Request) : M unit :=
  fun w =>
  let code :=
    match error with
    | Some _ => error_status (statusCode (res (sys w)))
    | None => 404
    end in
  if headersSent (res (sys w)) then (tt, w)
  else (lift (set_status code) ;;
        (if String.eqb (method req) "HEAD" then res_end BAbsent None None
         else res_end (BText (errorPage E error code req)) (Some "utf8") None) ;;
        ret tt) w.

(** The route layer: the matched handler runs; what it throws goes where
    its phase sends it; without a matching route the final handler answers
    404.  An exception in a timer callback reaches the process at once; a
    rejection nobody handles reaches it when the pending work, the emission
    of ['finish'] included, is done. *)
Definition dispatch (app : App) (req : Request) (handler : option (Prog unit))
  : M unit :=
  match handler with
  | None => finalhandler None req
  | Some h =>
      o <- run req InHandler h ;;
      match o with
      | Finished _ => ret tt
      | Thrown InHandler m => finalhandler (Some m) req
      | Thrown InPromise m =>
          if express5 E then finalhandler (Some m) req
          else emit_finish ;; lift (unhandledRejection app m)
      | Thrown InTimer m => lift (uncaughtException app m)
      end
  end.

(** One request through [app.use(middleware)] and the routes. *)
Definition serve (app : App) (req : Request) (handler : option (Prog unit))
  : M unit :=
  use app req (dispatch app req handler) ;; emit_finish.

End Runtime.

(** ** Code shared by the two services, textually *)

(** [v || other]: [other] is evaluated only when [v] is falsy. *)
Definition or_else (v : option string) (other : Act string) : Act string :=
  match v with
  | Some s => if truthy v then ret s else other
  | None => other
  end.

(** [Math.random().toString(36).substring(2)] *)
Definition random_id (E : Env) : Act string :=
  r <- math_random E ;;
  ret (substring_from 2 (Radix36.toString r)).

(** [req.get('X-Request-ID') || Math.random().toString(36).substring(2)] *)
Definition request_id (E : Env) (req : Request) : Act string :=
  or_else (req_get "X-Request-ID" req) (random_id E).

(** [error.code || 'UNKNOWN'] *)
Definition code_or_unknown (code : option string) : string :=
  match code with
  | Some c => if truthy code then c else "UNKNOWN"
  | None => "UNKNOWN"
  end.

(** [(millis) / 1000]: the exact quotient; the runtime keeps its nearest
    double. *)
Definition to_seconds (millis : Z) : Q := Qmake millis 1000.
(** ** api-service-1 *)
Module Service1.

Definition name : string := "api-service-1".

Definition started_event (req : Request) (requestId : string) (now : Z)
  : Fields :=
  [ ("level", JStr "info");
    ("message", JStr ("Request started: " ++ method req ++ " " ++ url req));
    ("method", JStr (method req));
    ("url", JStr (url req));
    ("ip", of_option (ip req));
    ("userAgent", of_option (req_get "User-Agent" req));
    ("requestId", JStr requestId);
    ("service", JStr name);
    ("timestamp", JIso now) ].

Definition completed_event (req : Request) (code duration : Z)
           (requestId : string) (now : Z) : Fields :=
  [ ("level", JStr "info");
    ("message", JStr ("Request completed: " ++ method req ++ " " ++ url req));
    ("method", JStr (method req));
    ("url", JStr (url req));
    ("statusCode", JNum code);
    ("duration", JNum duration);
    ("requestId", JStr requestId);
    ("service", JStr name);
    ("timestamp", JIso now) ].

Section WithEnv.

Variable E : Env.

(** The function the middleware stores in [res.end]: it has two
    parameters, and calls the original with these two. *)
Definition logging_end (req : Request) (start : Z) (requestId : string)
           (originalEnd : EndFunction) : EndFunction :=
  fun chunk encoding _ =>
    finish <- date_now E ;;
    let duration := finish - start in
    code <- get_status ;;
    now <- date_now E ;;
    console_log SiteComplete
      (completed_event req code duration requestId now) ;;
    originalEnd chunk encoding None.

Definition middleware (req : Request) (next : M unit) : M unit :=
  start <- lift (date_now E) ;;
  requestId <- lift (request_id E req) ;;
  now <- lift (date_now E) ;;
  lift (console_log SiteStart (started_event req requestId now)) ;;
  originalEnd <- get_res_end ;;
  set_res_end (logging_end req start requestId originalEnd) ;;
  next.

(** [process.on('uncaughtException', ...)] *)
Definition uncaught_exception (message : string) : Act unit :=
  now <- date_now E ;;
  console_log SiteProcess
    [ ("level", JStr "error");
      ("message", JStr "Uncaught exception");
      ("error", JStr message);
      ("stack", JStr (errorStack E message));
      ("service", JStr name);
      ("timestamp", JIso now) ].

(** [process.on('unhandledRejection', ...)], the reason being an Error. *)
Definition unhandled_rejection (message : string) : Act unit :=
  now <- date_now E ;;
  console_log SiteProcess
    [ ("level", JStr "error");
      ("message", JStr "Unhandled rejection");
      ("reason", JStr message);
      ("stack", JStr (errorStack E message));
      ("service", JStr name);
      ("timestamp", JIso now) ].

Definition app : App :=
  {| use := middleware;
     uncaughtException := uncaught_exception;
     unhandledRejection := unhandled_rejection |}.

End WithEnv.

Definition delays : list Z := [100; 200; 500; 1000; 3000].

(** [delays[index]]: [undefined] outside the array. *)
Definition element (index : Z) : JVal :=
  if index <? 0 then JUndefined
  else match nth_error delays (Z.to_nat index) with
       | Some d => JNum d
       | None => JUndefined
       end.

(** [Math.floor(Math.random() * delays.length)] *)
Definition delay_index (random : Z) : Z :=
  Double.floor (Double.mul random (Z.of_nat (List.length delays))).

Definition heavy_task : Prog unit :=
  call AsyncFunction ;;
  random <~ MathRandom ;;
  let delay := element (delay_index random) in
  requestId <~ DateNow ;;
  now <~ DateNow ;;
  call ConsoleLog
    [ ("level", JStr "info");
      ("message", JStr ("Starting heavy task with delay: " ++ template delay ++ "ms"));
      ("delay", delay);
      ("requestId", JNum requestId);
      ("route", JStr "/heavy-task");
      ("service", JStr name);
      ("timestamp", JIso now) ] ;;
  call SetTimeout delay ;;
  draw <~ MathRandom ;;
  if draw <? Double.of_decimal 2 1 then
    now <~ DateNow ;;
    call ConsoleLog
      [ ("level", JStr "error");
        ("message", JStr "Heavy task failed with internal server error");
        ("requestId", JNum requestId);
        ("endpoint", JStr "/heavy-task");
        ("status", JNum 500);
        ("service", JStr name);
        ("timestamp", JIso now) ] ;;
    call ResStatus 500 eq_refl ;;
    res_json [ ("error", JStr "Internal Server Error") ] (Ret tt)
  else
    now <~ DateNow ;;
    call ConsoleLog
      [ ("level", JStr "info");
        ("message", JStr ("Heavy task completed successfully in " ++ template delay ++ "ms"));
        ("requestId", JNum requestId);
        ("endpoint", JStr "/heavy-task");
        ("status", JNum 200);
        ("duration", delay);
        ("service", JStr name);
        ("timestamp", JIso now) ] ;;
    res_json [ ("message", JStr ("Completed in " ++ template delay ++ "ms")) ] (Ret tt).

Definition test_service_2 : Prog unit :=
  call AsyncFunction ;;
  timestamp <~ DateNow ;;
  call ConsoleLog
    [ ("level", JStr "info");
      ("message", JStr "Initiating call to API Service 2");
      ("timestamp", JIso timestamp);
      ("service", JStr name) ] ;;
  start <~ DateNow ;;
  now <~ DateNow ;;
  call ConsoleLog
    [ ("level", JStr "debug");
      ("message", JStr "Sending request to API Service 2");
      ("target", JStr "api-service-2");
      ("url", JStr "http://api-service-2/");
      ("service", JStr name);
      ("timestamp", JIso now) ] ;;
  answer <~ AxiosGet "http://api-service-2/" ;;
  match answer with
  | inr response =>
      finish <~ DateNow ;;
      let duration := to_seconds (finish - start) in
      let responseSize := jsonLength response in
      now <~ DateNow ;;
      call ConsoleLog
        [ ("level", JStr "info");
          ("message", JStr "Successfully received response from API Service 2");
          ("duration", JQuot duration);
          ("status", JNum (status response));
          ("size", JNum responseSize);
          ("service", JStr name);
          ("timestamp", JIso now) ] ;;
      call Observe ("GET", "/test-service-2", "200") duration ;;
      res_json [ ("message", JStr "Called API Service 2");
                 ("data", data response) ] (Ret tt)
  | inl error =>
      now <~ DateNow ;;
      call ConsoleLog
        [ ("level", JStr "error");
          ("message", JStr "Failed to call API Service 2");
          ("error", JStr (errMessage error));
          ("code", JStr (code_or_unknown (errCode error)));
          ("stack", JStr (errStack error));
          ("service", JStr name);
          ("timestamp", JIso now) ] ;;
      call ResStatus 500 eq_refl ;;
      res_json [ ("error", JStr "Failed to call API Service 2") ] (Ret tt)
  end.

Definition metrics : Prog unit :=
  call AsyncFunction ;;
  now <~ DateNow ;;
  call ConsoleLog
    [ ("level", JStr "debug");
      ("message", JStr "Metrics endpoint called");
      ("service", JStr name);
      ("timestamp", JIso now) ] ;;
  text <~ RegisterMetrics ;;
  call ResEnd (BText text) None None ;;
  Ret tt.

Definition info : Prog unit :=
  now <~ DateNow ;;
  call ConsoleLog
    [ ("level", JStr "info");
      ("message", JStr "Info endpoint called");
      ("service", JStr "API Service 1");
      ("version", JStr "1.0.0");
      ("timestamp", JIso now) ] ;;
  res_json [ ("service", JStr "API Service 1"); ("version", JStr "1.0.0") ]
           (Ret tt).

Definition health : Prog unit :=
  now <~ DateNow ;;
  call ConsoleLog
    [ ("level", JStr "info");
      ("message", JStr "Health check endpoint called");
      ("status", JStr "healthy");
      ("service", JStr name);
      ("timestamp", JIso now) ] ;;
  res_send "API Service 1 is running 🚀" (Ret tt).

Inductive Route : Type :=
| HeavyTask | TestService2 | Metrics | ServiceInfo | Health.

Definition path (r : Route) : string :=
  match r with
  | HeavyTask => "/heavy-task"
  | TestService2 => "/test-service-2"
  | Metrics => "/metrics"
  | ServiceInfo => "/info"
  | Health => "/"
  end.

Definition handler (r : Route) : Prog unit :=
  match r with
  | HeavyTask => heavy_task
  | TestService2 => test_service_2
  | Metrics => metrics
  | ServiceInfo => info
  | Health => health
  end.

(** One request, routed by Express to [route] ([None]: no route matched). *)
Definition handle (E : Env) (req : Request) (route : option Route) : M unit :=
  serve E (app E) req (option_map handler route).

End Service1.

(** ** api-service-2 *)
Module Service2.

Definition name : string := "api-service-2".

Definition started_event (req : Request) (requestId : string) (now : Z)
  : Fields :=
  [ ("level", JStr "info");
    ("message", JStr ("Request started: " ++ method req ++ " " ++ url req));
    ("method", JStr (method req));
    ("url", JStr (url req));
    ("ip", of_option (ip req));
    ("userAgent", of_option (req_get "User-Agent" req));
    ("requestId", JStr requestId);
    ("service", JStr name);
    ("timestamp", JIso now) ].

Definition completed_event (req : Request) (code duration : Z) (now : Z)
  : Fields :=
  [ ("level", JStr "info");
    ("message", JStr ("Request completed: " ++ method req ++ " " ++ url req));
    ("method", JStr (method req));
    ("url", JStr (url req));
    ("statusCode", JNum code);
    ("duration", JNum duration);
    ("service", JStr name);
    ("timestamp", JIso now) ].

Section WithEnv.

Variable E : Env.

(** The listener the middleware registers for ['finish']. *)
Definition finish_listener (req : Request) (start : Z) : Act unit :=
  finish <- date_now E ;;
  let duration := finish - start in
  code <- get_status ;;
  now <- date_now E ;;
  console_log SiteComplete (completed_event req code duration now).

Definition middleware (req : Request) (next : M unit) : M unit :=
  start <- lift (date_now E) ;;
  requestId <- lift (request_id E req) ;;
  now <- lift (date_now E) ;;
  lift (console_log SiteStart (started_event req requestId now)) ;;
  on_finish (finish_listener req start) ;;
  next.

(** [process.on('uncaughtException', ...)] *)
Definition uncaught_exception (message : string) : Act unit :=
  now <- date_now E ;;
  console_log SiteProcess
    [ ("level", JStr "error");
      ("message", JStr "Uncaught exception");
      ("error", JStr message);
      ("stack", JStr (errorStack E message));
      ("service", JStr name);
      ("timestamp", JIso now) ].

(** [process.on('unhandledRejection', ...)], the reason being an Error. *)
Definition unhandled_rejection (message : string) : Act unit :=
  now <- date_now E ;;
  console_log SiteProcess
    [ ("level", JStr "error");
      ("message", JStr "Unhandled Rejection");
      ("reason", JStr message);
      ("stack", JStr (errorStack E message));
      ("service", JStr name);
      ("timestamp", JIso now) ].

Definition app : App :=
  {| use := middleware;
     uncaughtException := uncaught_exception;
     unhandledRejection := unhandled_rejection |}.

End WithEnv.

Definition compute : Prog unit :=
  now <~ DateNow ;;
  call ConsoleLog
    [ ("level", JStr "info");
      ("message", JStr "Starting compute-heavy task");
      ("route", JStr "/compute");
      ("service", JStr name);
      ("timestamp", JIso now) ] ;;
  startTime <~ DateNow ;;
  sum <~ SqrtLoop ;;
  finish <~ DateNow ;;
  let duration := finish - startTime in
  now <~ DateNow ;;
  call ConsoleLog
    [ ("level", JStr "info");
      ("message", JStr "Compute-heavy task completed");
      ("route", JStr "/compute");
      ("duration", JNum duration);
      ("result", sum);
      ("service", JStr name);
      ("timestamp", JIso now) ] ;;
  res_json [ ("message", JStr "Computation completed"); ("result", sum) ]
           (Ret tt).

Definition called_event (now : Z) : Fields :=
  [ ("level", JStr "info");
    ("message", JStr "Random fail endpoint called");
    ("route", JStr "/random-fail");
    ("service", JStr name);
    ("timestamp", JIso now) ].

Definition failure_event (now : Z) : Fields :=
  [ ("level", JStr "error");
    ("message", JStr "Random failure occurred");
    ("route", JStr "/random-fail");
    ("statusCode", JNum 500);
    ("service", JStr name);
    ("timestamp", JIso now) ].

Definition success_event (now : Z) : Fields :=
  [ ("level", JStr "info");
    ("message", JStr "Random fail endpoint succeeded");
    ("route", JStr "/random-fail");
    ("statusCode", JNum 200);
    ("service", JStr name);
    ("timestamp", JIso now) ].

(** The double the literal [0.3] denotes. *)
Definition threshold : Z := Double.of_decimal 3 1.

Definition random_fail : Prog unit :=
  now <~ DateNow ;;
  call ConsoleLog (called_event now) ;;
  draw <~ MathRandom ;;
  if draw <? threshold then
    now <~ DateNow ;;
    call ConsoleLog (failure_event now) ;;
    call ResStatus 500 eq_refl ;;
    res_json [ ("error", JStr "Random failure occurred") ] (Ret tt)
  else
    now <~ DateNow ;;
    call ConsoleLog (success_event now) ;;
    res_json [ ("message", JStr "Success") ] (Ret tt).

Definition test_service_1 : Prog unit :=
  call AsyncFunction ;;
  now <~ DateNow ;;
  call ConsoleLog
    [ ("level", JStr "info");
      ("message", JStr "Attempting to call API Service 1");
      ("route", JStr "/test-service-1");
      ("service", JStr name);
      ("timestamp", JIso now) ] ;;
  start <~ DateNow ;;
  now <~ DateNow ;;
  call ConsoleLog
    [ ("level", JStr "debug");
      ("message", JStr "Sending request to API Service 1");
      ("targetUrl", JStr "http://api-service-1/");
      ("service", JStr name);
      ("timestamp", JIso now) ] ;;
  answer <~ AxiosGet "http://api-service-1/" ;;
  match answer with
  | inr response =>
      finish <~ DateNow ;;
      let duration := to_seconds (finish - start) in
      call Observe ("GET", "/test-service-1", "200") duration ;;
      now <~ DateNow ;;
      call ConsoleLog
        [ ("level", JStr "info");
          ("message", JStr "Successfully called API Service 1");
          ("route", JStr "/test-service-1");
          ("duration", JQuot duration);
          ("responseData", JStr (dataJson response));
          ("service", JStr name);
          ("timestamp", JIso now) ] ;;
      res_json [ ("message", JStr "Called API Service 1");
                 ("data", data response) ] (Ret tt)
  | inl error =>
      now <~ DateNow ;;
      call ConsoleLog
        [ ("level", JStr "error");
          ("message", JStr "Failed to call API Service 1");
          ("route", JStr "/test-service-1");
          ("error", JStr (errMessage error));
          ("stack", JStr (errStack error));
          ("service", JStr name);
          ("timestamp", JIso now) ] ;;
      call ResStatus 500 eq_refl ;;
      res_json [ ("error", JStr "Failed to call API Service 1") ] (Ret tt)
  end.

Definition metrics : Prog unit :=
  call AsyncFunction ;;
  now <~ DateNow ;;
  call ConsoleLog
    [ ("level", JStr "info");
      ("message", JStr "Metrics endpoint called");
      ("route", JStr "/metrics");
      ("service", JStr name);
      ("timestamp", JIso now) ] ;;
  text <~ RegisterMetrics ;;
  call ResEnd (BText text) None None ;;
  Ret tt.

Definition health : Prog unit :=
  now <~ DateNow ;;
  call ConsoleLog
    [ ("level", JStr "info");
      ("message", JStr "Health check performed");
      ("route", JStr "/");
      ("status", JStr "healthy");
      ("service", JStr name);
      ("timestamp", JIso now) ] ;;
  res_send "API Service 2 is running 🚀" (Ret tt).

Inductive Route : Type :=
| ComputeTask | RandomFail | TestService1 | Metrics | Health.

Definition path (r : Route) : string :=
  match r with
  | ComputeTask => "/compute"
  | RandomFail => "/random-fail"
  | TestService1 => "/test-service-1"
  | Metrics => "/metrics"
  | Health => "/"
  end.

Definition handler (r : Route) : Prog unit :=
  match r with
  | ComputeTask => compute
  | RandomFail => random_fail
  | TestService1 => test_service_1
  | Metrics => metrics
  | Health => health
  end.

Definition handle (E : Env) (req : Request) (route : option Route) : M unit :=
  serve E (app E) req (option_map handler route).

End Service2.

(** ** Sample environment and request, for the examples below *)
Module Sample.

(** [JSON.stringify] of a string that needs no escapes. *)
Definition quoted (s : string) : string :=
  String (ascii_of_nat 34) (s ++ String (ascii_of_nat 34) EmptyString).

Definition running : RemoteResponse :=
  {| status := 200; data := JStr "API Service 2 is running";
     dataJson := quoted "API Service 2 is running";
     jsonLength := 26 |}.

(** Express 4; the peer answers; ETags are compared as strings. *)
Definition env (clock : nat -> Z) (random : nat -> Z) : Env :=
  {| dateNow := clock;
     mathRandom := random;
     axiosGet := fun _ => inr running;
     metricsText := "# HELP";
     computeSum := JNum 0;
     express5 := false;
     etag := fun _ => "W/0";
     etagMatches := String.eqb;
     noCache := fun _ => false;
     errorStack := fun message => "Error: " ++ message;
     errorPage := fun _ _ _ => "Internal Server Error" |}.

Definition idle : Sys :=
  {| res := fresh_response; console := []; histogram := [];
     clockReads := 0; randomDraws := 0; remoteCalls := 0 |}.

Definition get (path : string) (hs : list (string * string)) : Request :=
  {| method := "GET"; url := path; ip := Some "10.0.0.7"; headers := hs |}.

End Sample.

(** ** Handlers seen from the response hooks

    Up to its first call of [res.end] a handler reaches only [Sys]:
    [advance] runs it up to that call (or to its end), and tells in which
    phase it stopped. *)

Inductive Stop (A : Type) : Type :=
| Returned (a : A)
| Threw (ph : Phase) (message : string)
| Ending (ph : Phase) (chunk : Body) (encoding callback : option string)
         (k : JVal -> Prog A).

Arguments Threw {A} ph message.

Section Advance.

Variable E : Env.
Variable req : Request.

Fixpoint advance {A} (ph : Phase) (p : Prog A) : Act (Stop A) :=
  match p with
  | Ret a => ret (Returned a)
  | Throw m => ret (Threw ph m)
  | Do e k =>
      match e in Effect X return (X -> Prog A) -> Act (Stop A) with
      | DateNow => fun k s =>
          let (x, s') := date_now E s in advance ph (k x) s'
      | MathRandom => fun k s =>
          let (x, s') := math_random E s in advance ph (k x) s'
      | ConsoleLog object => fun k s =>
          let (x, s') := console_log SiteHandler object s in advance ph (k x) s'
      | ResStatus code _ => fun k s =>
          let (x, s') := set_status code s in advance ph (k x) s'
      | ResStatusCode => fun k s =>
          let (x, s') := get_status s in advance ph (k x) s'
      | ResEnd chunk encoding callback => fun k =>
          ret (Ending ph chunk encoding callback k)
      | ReqMethod => fun k => advance ph (k (method req))
      | ReqFresh chunk => fun k s =>
          let (x, s') := get_fresh E req chunk s in advance ph (k x) s'
      | Observe l value => fun k s =>
          let (x, s') := observe l value s in advance ph (k x) s'
      | AxiosGet target => fun k s =>
          let (x, s') := axios_get E target s in advance InPromise (k x) s'
      | SetTimeout _ => fun k => advance InTimer (k tt)
      | RegisterMetrics => fun k => advance InPromise (k (metricsText E))
      | SqrtLoop => fun k => advance ph (k (computeSum E))
      | AsyncFunction => fun k => advance InPromise (k tt)
      end k
  end.

End Advance.

Definition put (s : Sys) (w : World) : World :=
  {| sys := s; resEnd := resEnd w;
     finishListeners := finishListeners w;
     finishEmitted := finishEmitted w |}.

Definition is_end {X} (e : Effect X) : bool :=
  match e with ResEnd _ _ _ => true | _ => false end.

(** A program, started in phase [ph], whose call of [res.end] is the last
    thing it does, or that throws before it where Express catches it: in
    the call Express made, not in an [async] function, after an [await] or
    in a timer callback. *)
Inductive ends_last {A} : Phase -> Prog A -> Prop :=
| last_throw m : ends_last InHandler (Throw m)
| last_end ph chunk encoding callback a :
    ends_last ph (Do (ResEnd chunk encoding callback) (fun _ => Ret a))
| last_do ph X (e : Effect X) k :
    is_end e = false ->
    (forall x, ends_last (next_phase ph e) (k x)) ->
    ends_last ph (Do e k).

Definition ends_last_opt (h : option (Prog unit)) : Prop :=
  match h with
  | Some p => ends_last InHandler p
  | None => True
  end.

(** The wall clock did not go backwards. *)
Definition steady (E : Env) : Prop :=
  forall i j, (i <= j)%nat -> dateNow E i <= dateNow E j.

Definition from_handler (l : LogLine) : Prop := site l = SiteHandler.

Section Derived.

Variable E : Env.

(** What a handler can have done to [Sys] without ending the response:
    it wrote lines of its own, read the clock, maybe set the status. *)
Record handler_only (s s' : Sys) (lines : list LogLine) : Prop := {
  ho_console : console s' = (console s ++ lines)%list;
  ho_lines : Forall from_handler lines;
  ho_clock : (clockReads s <= clockReads s')%nat;
  ho_finished : finished (res s') = finished (res s);
  ho_headers : headersSent (res s') = headersSent (res s);
  ho_wire : wire (res s') = wire (res s);
  ho_callbacks : endCallbacks (res s') = endCallbacks (res s)
}.

(** The identifier the middleware settles on, and whether it had to draw
    a random number for it. *)
Definition id_of (req : Request) (s : Sys) : string :=
  fst (request_id E req s).

Definition drew (req : Request) : bool :=
  negb (truthy (req_get "X-Request-ID" req)).

(** [Sys] once the middleware has written its start line. *)
Definition entered (line : LogLine) (draw : bool) (s : Sys) : Sys :=
  {| res := res s;
     console := console s ++ [line];
     histogram := histogram s;
     clockReads := S (S (clockReads s));
     randomDraws := if draw then S (randomDraws s) else randomDraws s;
     remoteCalls := remoteCalls s |}.

(** [Sys] once a completion line was written. *)
Definition completed (line : LogLine) (s : Sys) : Sys :=
  {| res := res s;
     console := console s ++ [line];
     histogram := histogram s;
     clockReads := S (S (clockReads s));
     randomDraws := randomDraws s;
     remoteCalls := remoteCalls s |}.

Definition start_line1 (req : Request) (s : Sys) : LogLine :=
  {| site := SiteStart;
     event := json_stringify
                (Service1.started_event req (id_of req s)
                   (dateNow E (S (clockReads s)))) |}.

Definition start_line2 (req : Request) (s : Sys) : LogLine :=
  {| site := SiteStart;
     event := json_stringify
                (Service2.started_event req (id_of req s)
                   (dateNow E (S (clockReads s)))) |}.

(** The completion line written from state [s], for a request that
    started at reading [c]. *)
Definition complete_line1 (req : Request) (rid : string) (c : nat)
           (s : Sys) : LogLine :=
  {| site := SiteComplete;
     event := json_stringify
                (Service1.completed_event req (statusCode (res s))
                   (dateNow E (clockReads s) - dateNow E c) rid
                   (dateNow E (S (clockReads s)))) |}.

Definition complete_line2 (req : Request) (c : nat) (s : Sys) : LogLine :=
  {| site := SiteComplete;
     event := json_stringify
                (Service2.completed_event req (statusCode (res s))
                   (dateNow E (clockReads s) - dateNow E c)
                   (dateNow E (S (clockReads s)))) |}.

(** [Sys] with the response of a new request. *)
Definition renewed (s : Sys) : Sys := with_res fresh_response s.

(** [Sys] after the native [end] was called. *)
Definition sent (chunk : Body) (encoding callback : option string) (s : Sys)
  : Sys :=
  snd (node_end chunk encoding callback s).

Definition serve1 (req : Request) (h : option (Prog unit)) (s : Sys) : Sys :=
  sys (snd (serve E (Service1.app E) req h (accept s))).

Definition serve2 (req : Request) (h : option (Prog unit)) (s : Sys) : Sys :=
  sys (snd (serve E (Service2.app E) req h (accept s))).

(** The state in which the handler of a request starts. *)
Definition entry1 (req : Request) (s : Sys) : Sys :=
  entered (start_line1 req (renewed s)) (drew req) (renewed s).

Definition entry2 (req : Request) (s : Sys) : Sys :=
  entered (start_line2 req (renewed s)) (drew req) (renewed s).

(** The state in which [res.end] is called first, for a handler started in
    [s]: where the handler calls it, or where the final handler does, having
    set its status, after a throw Express caught or for a missing route. *)
Definition ending_state (req : Request) (h : option (Prog unit)) (s : Sys)
  : Sys :=
  match h with
  | None => snd (set_status 404 s)
  | Some p =>
      match advance E req InHandler p s with
      | (Threw InHandler _, mid) =>
          snd (set_status (error_status (statusCode (res mid))) mid)
      | (_, mid) => mid
      end
  end.

(** [res.send] seen from the hooks: the status it leaves on a response
    that had status [code], the chunk it hands [res.end], and the state in
    which it calls [res.end]. *)
Definition send_status (req : Request) (buffer : Body) (code : Z) : Z :=
  if req_fresh E req code buffer then 304 else code.

Definition send_chunk (req : Request) (buffer : Body) (code : Z) : Body :=
  if String.eqb (method req) "HEAD" then BAbsent
  else if bodiless code then BText EmptyString else buffer.

Definition sending (req : Request) (buffer : Body) (s : Sys) : Sys :=
  with_res {| statusCode := send_status req buffer (statusCode (res s));
              headersSent := headersSent (res s);
              finished := finished (res s);
              wire := wire (res s);
              endCallbacks := endCallbacks (res s) |} s.

(** What the final handler gives [res.end]. *)
Definition final_chunk (error : option string) (code : Z) (req : Request)
  : Body * option string :=
  if String.eqb (method req) "HEAD" then (BAbsent, None)
  else (BText (errorPage E error code req), Some "utf8").

(** The chunk and encoding of that call. *)
Definition ending_chunk (req : Request) (h : option (Prog unit)) (s : Sys)
  : Body * option string :=
  match h with
  | None => final_chunk None 404 req
  | Some p =>
      match advance E req InHandler p s with
      | (Ending _ chunk encoding _ _, _) => (chunk, encoding)
      | (Threw InHandler m, mid) =>
          final_chunk (Some m) (error_status (statusCode (res mid))) req
      | _ => (BAbsent, None)
      end
  end.

(** The callback of that call. *)
Definition ending_callback (req : Request) (h : option (Prog unit)) (s : Sys)
  : option string :=
  match h with
  | None => None
  | Some p =>
      match fst (advance E req InHandler p s) with
      | Ending _ _ _ callback _ => callback
      | _ => None
      end
  end.

End Derived.

(** ** Both services under one name *)

Inductive Service : Type := ApiService1 | ApiService2.

Definition app_of (svc : Service) (E : Env) : App :=
  match svc with
  | ApiService1 => Service1.app E
  | ApiService2 => Service2.app E
  end.

Definition middleware_of (svc : Service) (E : Env)
  : Request -> M unit -> M unit :=
  match svc with
  | ApiService1 => Service1.middleware E
  | ApiService2 => Service2.middleware E
  end.

(** The process state after one request went through [svc]. *)
Definition served (svc : Service) (E : Env) (req : Request)
           (h : option (Prog unit)) (s : Sys) : Sys :=
  sys (snd (serve E (app_of svc E) req h (accept s))).

(** ** Vocabulary of the properties *)

(** The process state when the middleware calls [next()]. *)
Definition at_next (svc : Service) (E : Env) (req : Request) (s : Sys) : Sys :=
  sys (snd (middleware_of svc E req (ret tt) (accept s))).


(** The lines one request adds to the console: the start line, then the
    lines of the handler, then the completion line. *)
Definition request_log (startEv doneEv : Fields) (mid : list LogLine)
  : list LogLine :=
  ({| site := SiteStart; event := startEv |} :: mid ++
   [{| site := SiteComplete; event := doneEv |}])%list.

(** The timestamp a line carries, and those of a list of lines. *)
Definition stamp (l : LogLine) : option Z :=
  match field "timestamp" (event l) with
  | Some (JIso t) => Some t
  | _ => None
  end.

(** How many of the lines were written at [x]. *)
Fixpoint count_site (x : Site) (lines : list LogLine) : nat :=
  match lines with
  | [] => O
  | l :: rest =>
      if site_eqb (site l) x then S (count_site x rest) else count_site x rest
  end.






Definition start_line (svc : Service) (E : Env) (req : Request) (s : Sys)
  : LogLine :=
  match svc with
  | ApiService1 => start_line1 E req s
  | ApiService2 => start_line2 E req s
  end.


(** An [end] that is the native one, called on the same response with the
    same chunk and encoding. *)
Definition forwards (f : EndFunction) : Prop :=
  forall chunk encoding callback s,
    exists s1 callback',
      res s1 = res s /\
      f chunk encoding callback s = node_end chunk encoding callback' s1.

Definition leaves_response (l : Act unit) : Prop :=
  forall s, res (snd (l s)) = res s.

(** The application without its middleware. *)
Definition bare (app : App) : App :=
  {| use := fun _ next => next;
     uncaughtException := uncaughtException app;
     unhandledRejection := unhandledRejection app |}.

(** What the final handler sends. *)
Definition final_answer (E : Env) (error : option string) (code : Z)
           (req : Request) : Sent :=
  {| sentStatus := code;
     sentChunk := fst (final_chunk E error code req);
     sentEncoding := snd (final_chunk E error code req) |}.

(** What the handler alone asks to be sent: the chunk and encoding of its
    first [res.end] with the status it had set by then; the answer of the
    final handler when Express caught a throw before that, or when no route
    matched; nothing when it returned without ending the response, or threw
    where Express does not catch it. *)
Definition handler_response (E : Env) (req : Request)
           (h : option (Prog unit)) (s : Sys) : list Sent :=
  match h with
  | None => [final_answer E None 404 req]
  | Some p =>
      match advance E req InHandler p s with
      | (Returned _, _) => []
      | (Threw InHandler m, mid) =>
          [final_answer E (Some m) (error_status (statusCode (res mid))) req]
      | (Threw InPromise m, mid) =>
          if express5 E
          then [final_answer E (Some m) (error_status (statusCode (res mid))) req]
          else []
      | (Threw InTimer _, _) => []
      | (Ending _ chunk encoding _ _, mid) =>
          [ {| sentStatus := statusCode (res mid); sentChunk := chunk;
               sentEncoding := encoding |} ]
      end
  end.

(** C8 on the override, as it is stated: the function api-service-1
    stores in [res.end] calls the original with all the arguments it was
    given. *)
Definition forwards_every_argument (E : Env) (req : Request) : Prop :=
  forall start requestId originalEnd chunk encoding callback s0,
    exists s1,
      res s1 = res s0 /\
      Service1.logging_end E req start requestId originalEnd
        chunk encoding callback s0
      = originalEnd chunk encoding callback s1.

(** A handler that gives [res.end] a callback. *)
Definition end_with_callback : Prog unit :=
  call ResEnd (BText "ok") (Some "utf8") (Some "done") ;; Ret tt.






(** A request that [req.fresh] may find fresh: it names a validator. *)
Definition conditional (req : Request) : bool :=
  truthy (lookup "if-none-match" (headers req)) ||
  truthy (lookup "if-modified-since" (headers req)).

(** What [res.json(object)] hands the native [end] for a request that is a
    GET and not conditional. *)
Definition json_answer (code : Z) (object : Fields) : Sent :=
  {| sentStatus := code; sentChunk := BBufferJson (json_stringify object);
     sentEncoding := None |}.

(** ** Vocabulary of the further properties *)

(** The handler that calls the peer service, its route and the name it
    gives the peer. *)
Definition peer_call (svc : Service) : Prog unit :=
  match svc with
  | ApiService1 => Service1.test_service_2
  | ApiService2 => Service2.test_service_1
  end.


Definition peer_name (svc : Service) : string :=
  match svc with
  | ApiService1 => "API Service 2"
  | ApiService2 => "API Service 1"
  end.

Fixpoint timestamps (lines : list LogLine) : list Z :=
  match lines with
  | [] => []
  | l :: rest =>
      match stamp l with
      | Some t => t :: timestamps rest
      | None => timestamps rest
      end
  end.

Fixpoint nondecreasing (ts : list Z) : Prop :=
  match ts with
  | a :: (b :: _) as rest => a <= b /\ nondecreasing rest
  | _ => True
  end.

(** A line that names its service and carries a timestamp. *)
Definition tagged (name : string) (l : LogLine) : Prop :=
  field "service" (event l) = Some (JStr name) /\ stamp l <> None.


(** A handler that calls [res.end] a second time, with nothing to send. *)
Definition end_twice (first : Body) : Prog unit :=
  call ResEnd first None None ;;
  call ResEnd (BText EmptyString) None None ;; Ret tt.


(** * Properties *)

Section AdvanceFacts.

Variable E : Env.
Variable req : Request.

Lemma put_sys w : put (sys w) w = w.
Proof. destruct w; reflexivity. Qed.

Lemma emit_finish_unfinished w :
  finished (res (sys w)) = false -> emit_finish w = (tt, w).
Proof. intro H. unfold emit_finish. now rewrite H. Qed.

(** Up to the first call of [res.end], running a handler is [advance]. *)
Lemma run_advance A (p : Prog A) : forall ph w,
  finished (res (sys w)) = false ->
  run E req ph p w =
  match advance E req ph p (sys w) with
  | (Returned a, s) => (Finished a, put s w)
  | (Threw ph' m, s) => (Thrown ph' m, put s w)
  | (Ending ph' chunk encoding callback k, s) =>
      let (v, w') := res_end chunk encoding callback (put s w) in
      run E req ph' (k v) w'
  end.
Proof.
  induction p as [a | m | X e k IH]; intros ph w H.
  - destruct w; reflexivity.
  - destruct w; reflexivity.
  - destruct e; cbn [run advance perform yields next_phase];
      rewrite ?(emit_finish_unfinished w H); unfold lift, ret; cbn;
      try (rewrite IH by (cbn; exact H); try rewrite put_sys; reflexivity).
    rewrite put_sys. reflexivity.
Qed.

Lemma handler_only_refl s : handler_only s s [].
Proof.
  constructor; auto. now rewrite app_nil_r.
Qed.

Lemma handler_only_trans s1 s2 s3 l1 l2 :
  handler_only s1 s2 l1 -> handler_only s2 s3 l2 ->
  handler_only s1 s3 (l1 ++ l2)%list.
Proof.
  intros [c1 f1 k1 a1 b1 d1 e1] [c2 f2 k2 a2 b2 d2 e2]. constructor.
  - now rewrite c2, c1, app_assoc.
  - apply Forall_app; auto.
  - lia.
  - congruence.
  - congruence.
  - congruence.
  - congruence.
Qed.

Lemma handler_only_log s object :
  handler_only s (snd (console_log SiteHandler object s))
               [{| site := SiteHandler; event := json_stringify object |}].
Proof.
  constructor; cbn; auto. constructor; [reflexivity | constructor].
Qed.

Lemma advance_handler_only A (p : Prog A) : forall ph s,
  exists lines, handler_only s (snd (advance E req ph p s)) lines.
Proof.
  induction p as [a | m | X e k IH]; intros ph s.
  - exists []. apply handler_only_refl.
  - exists []. apply handler_only_refl.
  - destruct e; cbn [advance]; try apply IH.
    + destruct (IH (dateNow E (clockReads s)) ph (snd (date_now E s))) as [l H].
      exists l. cbn in *. destruct H; constructor; cbn in *; auto; lia.
    + destruct (IH (mathRandom E (randomDraws s)) ph (snd (math_random E s)))
        as [l H].
      exists l. cbn in *. destruct H; constructor; cbn in *; auto.
    + destruct (IH tt ph (snd (console_log SiteHandler object s))) as [l H].
      eexists. cbn in *.
      eapply handler_only_trans; [apply handler_only_log | exact H].
    + destruct (IH tt ph (snd (set_status code s))) as [l H].
      exists l. cbn in *. destruct H; constructor; cbn in *; auto.
    + exists []. apply handler_only_refl.
    + destruct (IH tt ph (snd (observe l value s))) as [l' H].
      exists l'. cbn in *. destruct H; constructor; cbn in *; auto.
    + destruct (IH (axiosGet E (remoteCalls s)) InPromise
                  (snd (axios_get E target s))) as [l H].
      exists l. cbn in *. destruct H; constructor; cbn in *; auto.
Qed.

Lemma ends_last_advance A ph (p : Prog A) :
  ends_last ph p -> forall s,
  match fst (advance E req ph p s) with
  | Returned _ => False
  | Threw ph' _ => ph' = InHandler
  | Ending _ _ _ _ k => exists a, k = fun _ => Ret a
  end.
Proof.
  induction 1 as [m | ph chunk encoding callback a | ph X e k He Hk IH];
    intro s; cbn; eauto.
  destruct e; cbn in He; try discriminate; cbn [advance next_phase] in *;
    apply IH.
Qed.

End AdvanceFacts.

(** ** The two middlewares, step by step *)

Section Middleware.

Variable E : Env.

Lemma id_of_draws req s s' :
  randomDraws s = randomDraws s' -> id_of E req s = id_of E req s'.
Proof.
  intro H. unfold id_of, request_id, or_else, random_id, bind, ret, math_random.
  destruct (req_get "X-Request-ID" req) as [h|]; cbn.
  - destruct (String.eqb h EmptyString); cbn; [ | reflexivity]. now rewrite H.
  - now rewrite H.
Qed.

Lemma middleware1_enter req next w :
  Service1.middleware E req next w =
  next {| sys := entered (start_line1 E req (sys w)) (drew req) (sys w);
          resEnd := Service1.logging_end E req
                      (dateNow E (clockReads (sys w)))
                      (id_of E req (sys w)) (resEnd w);
          finishListeners := finishListeners w;
          finishEmitted := finishEmitted w |}.
Proof.
  unfold Service1.middleware, start_line1, drew, id_of, request_id, or_else,
    random_id, entered.
  destruct (req_get "X-Request-ID" req) as [h|]; cbn.
  - destruct (String.eqb h EmptyString); reflexivity.
  - reflexivity.
Qed.

Lemma middleware2_enter req next w :
  Service2.middleware E req next w =
  next {| sys := entered (start_line2 E req (sys w)) (drew req) (sys w);
          resEnd := resEnd w;
          finishListeners :=
            finishListeners w ++
            [Service2.finish_listener E req (dateNow E (clockReads (sys w)))];
          finishEmitted := finishEmitted w |}.
Proof.
  unfold Service2.middleware, start_line2, drew, id_of, request_id, or_else,
    random_id, entered.
  destruct (req_get "X-Request-ID" req) as [h|]; cbn.
  - destruct (String.eqb h EmptyString); reflexivity.
  - reflexivity.
Qed.

(** The replaced [end] writes its line and then is the original [end],
    called with the chunk and the encoding. *)
Lemma logging_end_forwards req start rid c originalEnd chunk encoding callback s :
  start = dateNow E c ->
  Service1.logging_end E req start rid originalEnd chunk encoding callback s =
  originalEnd chunk encoding None (completed (complete_line1 E req rid c s) s).
Proof. intros ->. reflexivity. Qed.

Lemma finish_listener_logs req start c s :
  start = dateNow E c ->
  Service2.finish_listener E req start s =
  (tt, completed (complete_line2 E req c s) s).
Proof. intros ->. reflexivity. Qed.

End Middleware.

Section Shape.

Variable E : Env.

(** The final handler finds the headers already sent: it sends nothing. *)
Lemma finalhandler_after_end error req w :
  headersSent (res (sys w)) = true -> finalhandler E error req w = (tt, w).
Proof. unfold finalhandler. now intros ->. Qed.

Lemma node_end_sent chunk encoding callback s :
  node_end chunk encoding callback s = (JThis, sent chunk encoding callback s).
Proof.
  unfold sent, node_end. destruct (finished (res s)), callback; reflexivity.
Qed.

Lemma res_end_hook1 req rid c chunk encoding callback w :
  resEnd w = Service1.logging_end E req (dateNow E c) rid node_end ->
  res_end chunk encoding callback w =
  (JThis,
   put (sent chunk encoding None
          (completed (complete_line1 E req rid c (sys w)) (sys w))) w).
Proof.
  intro H. unfold res_end, lift, put. rewrite H.
  rewrite (@logging_end_forwards E req _ rid c node_end chunk encoding callback
             (sys w) eq_refl).
  rewrite node_end_sent. reflexivity.
Qed.

Lemma res_end_native chunk encoding callback w :
  resEnd w = node_end ->
  res_end chunk encoding callback w =
  (JThis, put (sent chunk encoding callback (sys w)) w).
Proof.
  intro H. unfold res_end, lift, put. rewrite H, node_end_sent. reflexivity.
Qed.

Lemma sent_finished chunk encoding callback s :
  finished (res (sent chunk encoding callback s)) = true.
Proof.
  unfold sent, node_end. destruct (finished (res s)) eqn:H, callback; cbn; auto.
Qed.

Lemma sent_first chunk encoding callback s :
  finished (res s) = false ->
  headersSent (res (sent chunk encoding callback s)) = true /\
  wire (res (sent chunk encoding callback s)) =
  (wire (res s) ++
   [{| sentStatus := statusCode (res s); sentChunk := chunk;
       sentEncoding := encoding |}])%list /\
  endCallbacks (res (sent chunk encoding callback s)) =
  (endCallbacks (res s) ++ given callback)%list.
Proof.
  unfold sent, node_end. intros ->. cbn. auto.
Qed.

(** The native [end] touches the response only. *)
Lemma sent_status chunk encoding callback s :
  statusCode (res (sent chunk encoding callback s)) = statusCode (res s) /\
  clockReads (sent chunk encoding callback s) = clockReads s /\
  console (sent chunk encoding callback s) = console s /\
  histogram (sent chunk encoding callback s) = histogram s.
Proof.
  unfold sent, node_end. destruct (finished (res s)), callback; cbn; auto.
Qed.

Lemma emit_finish_no_listener w :
  finishListeners w = [] -> sys (snd (emit_finish w)) = sys w.
Proof.
  intro H. unfold emit_finish.
  destruct (finished (res (sys w)) && negb (finishEmitted w)); cbn;
    [now rewrite H | reflexivity].
Qed.

Lemma emit_finish_listener2 req c w :
  finished (res (sys w)) = true ->
  finishEmitted w = false ->
  finishListeners w = [Service2.finish_listener E req (dateNow E c)] ->
  sys (snd (emit_finish w)) =
  completed (complete_line2 E req c (sys w)) (sys w).
Proof.
  intros Hf He Hl. unfold emit_finish. rewrite Hf, He, Hl. cbn [andb negb snd sys].
  cbn [run_listeners]. unfold bind.
  rewrite (@finish_listener_logs E req _ c (sys w) eq_refl). reflexivity.
Qed.

Lemma entry1_fresh req s :
  finished (res (entry1 E req s)) = false /\
  headersSent (res (entry1 E req s)) = false /\
  wire (res (entry1 E req s)) = [] /\
  clockReads (entry1 E req s) = S (S (clockReads s)).
Proof. cbn. auto. Qed.

Lemma entry2_fresh req s :
  finished (res (entry2 E req s)) = false /\
  headersSent (res (entry2 E req s)) = false /\
  wire (res (entry2 E req s)) = [] /\
  clockReads (entry2 E req s) = S (S (clockReads s)).
Proof. cbn. auto. Qed.

(** The final handler, with nothing sent yet, calls [res.end] once. *)
Lemma finalhandler_unsent error code req w :
  headersSent (res (sys w)) = false ->
  code = match error with
         | Some _ => error_status (statusCode (res (sys w)))
         | None => 404
         end ->
  finalhandler E error req w =
  (tt, snd (res_end (fst (final_chunk E error code req))
                    (snd (final_chunk E error code req)) None
                    (put (snd (set_status code (sys w))) w))).
Proof.
  intros Hs ->. unfold finalhandler, final_chunk. rewrite Hs.
  unfold bind, lift, put, ret.
  cbn [set_status sys resEnd finishListeners finishEmitted snd].
  destruct (String.eqb (method req) "HEAD"); cbn [fst snd];
    match goal with
    | |- context [res_end ?c ?e ?b ?w0] => destruct (res_end c e b w0)
    end; reflexivity.
Qed.

(** One request through api-service-1, for a handler that ends the
    response last: the override writes the completion line from the state
    in which [res.end] is called, then the native [end] runs, without the
    callback. *)
Lemma serve1_unfold req h s :
  ends_last_opt h ->
  let mid := ending_state E req h (entry1 E req s) in
  serve1 E req h s =
  sent (fst (ending_chunk E req h (entry1 E req s)))
       (snd (ending_chunk E req h (entry1 E req s))) None
       (completed
          (complete_line1 E req (id_of E req (renewed s)) (clockReads s) mid)
          mid).
Proof.
  intros Hh mid. unfold mid. clear mid.
  unfold serve1, serve. cbn [use Service1.app]. unfold bind at 1.
  rewrite middleware1_enter. cbn [accept sys resEnd finishListeners finishEmitted].
  fold (renewed s). fold (entry1 E req s).
  set (w := {| sys := entry1 E req s; resEnd := _ |}).
  assert (Hw : resEnd w = Service1.logging_end E req (dateNow E (clockReads s))
                             (id_of E req (renewed s)) node_end) by reflexivity.
  destruct (entry1_fresh req s) as [Hf [Hs [_ _]]].
  destruct h as [p | ]; cbn [dispatch ending_state ending_chunk].
  - pose proof (ends_last_advance E req Hh (entry1 E req s)) as Hk.
    destruct (advance_handler_only E req p InHandler (entry1 E req s))
      as [pre Hpre].
    unfold bind at 1. rewrite run_advance by exact Hf. cbn [sys w].
    destruct (advance E req InHandler p (entry1 E req s))
      as [[a | ph m | ph chunk encoding callback k] mid];
      cbn [fst snd] in *.
    + contradiction.
    + subst ph.
      rewrite (@finalhandler_unsent (Some m)
                 (error_status (statusCode (res mid))) req (put mid w))
        by first [reflexivity | cbn; now rewrite (ho_headers Hpre)].
      erewrite res_end_hook1 by exact Hw.
      cbn [snd]. rewrite emit_finish_no_listener by reflexivity. reflexivity.
    + destruct Hk as [a ->].
      erewrite res_end_hook1 by exact Hw.
      cbn [run ret snd]. rewrite emit_finish_no_listener by reflexivity.
      reflexivity.
  - rewrite (@finalhandler_unsent None 404 req w) by first [reflexivity | exact Hs].
    erewrite res_end_hook1 by reflexivity.
    cbn [snd]. rewrite emit_finish_no_listener by reflexivity. reflexivity.
Qed.

(** One request through api-service-2, for a handler that ends the
    response last: the native [end] runs, and the listener writes the
    completion line when ['finish'] is emitted. *)
Lemma serve2_unfold req h s :
  ends_last_opt h ->
  let after :=
    sent (fst (ending_chunk E req h (entry2 E req s)))
         (snd (ending_chunk E req h (entry2 E req s)))
         (ending_callback E req h (entry2 E req s))
         (ending_state E req h (entry2 E req s)) in
  serve2 E req h s = completed (complete_line2 E req (clockReads s) after) after.
Proof.
  intros Hh after. unfold serve2, serve. cbn [use Service2.app].
  unfold bind at 1.
  rewrite middleware2_enter. cbn [accept sys resEnd finishListeners finishEmitted app].
  fold (renewed s). fold (entry2 E req s).
  set (w := {| sys := entry2 E req s; resEnd := _ |}).
  assert (Hw : resEnd w = node_end) by reflexivity.
  destruct (entry2_fresh req s) as [Hf [Hs [_ _]]].
  assert (Hafter : finished (res after) = true) by apply sent_finished.
  assert (Hgoal : forall w',
             w' = put after w ->
             sys (snd (emit_finish w')) =
             completed (complete_line2 E req (clockReads s) after) after).
  { intros w' ->. now rewrite (@emit_finish_listener2 req (clockReads s)). }
  unfold after in *. clear after.
  destruct h as [p | ];
    cbn [dispatch ending_state ending_chunk ending_callback] in *.
  - pose proof (ends_last_advance E req Hh (entry2 E req s)) as Hk.
    destruct (advance_handler_only E req p InHandler (entry2 E req s))
      as [pre Hpre].
    unfold bind at 1. rewrite run_advance by exact Hf. cbn [sys w].
    destruct (advance E req InHandler p (entry2 E req s))
      as [[a | ph m | ph chunk encoding callback k] mid];
      cbn [fst snd] in *.
    + contradiction.
    + subst ph.
      rewrite (@finalhandler_unsent (Some m)
                 (error_status (statusCode (res mid))) req (put mid w))
        by first [reflexivity | cbn; now rewrite (ho_headers Hpre)].
      erewrite res_end_native by exact Hw.
      cbn [snd]. apply Hgoal. reflexivity.
    + destruct Hk as [a ->].
      erewrite res_end_native by exact Hw.
      cbn [run ret snd]. apply Hgoal. reflexivity.
  - rewrite (@finalhandler_unsent None 404 req w) by first [reflexivity | exact Hs].
    erewrite res_end_native by reflexivity.
    cbn [snd]. apply Hgoal. reflexivity.
Qed.

Lemma ending_state_only req h s :
  exists pre, handler_only s (ending_state E req h s) pre.
Proof.
  destruct h as [p | ]; cbn [ending_state].
  - destruct (advance_handler_only E req p InHandler s) as [pre Hpre].
    exists pre.
    destruct (advance E req InHandler p s)
      as [[a | ph m | ph chunk encoding callback k] mid];
      cbn [snd] in Hpre; auto.
    destruct ph; auto.
    destruct Hpre; constructor; cbn; auto.
  - exists []. constructor; cbn; auto. now rewrite app_nil_r.
Qed.

(** The listener of api-service-2 runs after the native [end], which
    leaves what it reads as it was. *)
Lemma complete_line2_sent req c chunk encoding callback s :
  complete_line2 E req c (sent chunk encoding callback s) =
  complete_line2 E req c s.
Proof.
  destruct (sent_status chunk encoding callback s) as [Hs [Hc _]].
  unfold complete_line2. now rewrite Hs, Hc.
Qed.

(** api-service-1: the lines of one request and what went out. *)
Lemma service1_shape req h s :
  ends_last_opt h ->
  let mid := ending_state E req h (entry1 E req s) in
  let chunk := fst (ending_chunk E req h (entry1 E req s)) in
  let encoding := snd (ending_chunk E req h (entry1 E req s)) in
  exists pre,
    console (serve1 E req h s) =
      (console s ++ [start_line1 E req (renewed s)] ++ pre ++
       [complete_line1 E req (id_of E req (renewed s)) (clockReads s) mid])%list /\
    Forall from_handler pre /\
    (S (S (clockReads s)) <= clockReads mid)%nat /\
    clockReads (serve1 E req h s) = S (S (clockReads mid)) /\
    wire (res (serve1 E req h s)) =
      [{| sentStatus := statusCode (res mid); sentChunk := chunk;
          sentEncoding := encoding |}] /\
    statusCode (res (serve1 E req h s)) = statusCode (res mid).
Proof.
  intros Hh mid chunk encoding. rewrite (serve1_unfold req h s Hh).
  destruct (ending_state_only req h (entry1 E req s)) as [pre Hpre].
  fold mid chunk encoding in Hpre |- *.
  set (line := complete_line1 E req (id_of E req (renewed s)) (clockReads s) mid).
  destruct (entry1_fresh req s) as [Hf [Hs [Hwire Hc]]].
  assert (Hfin : finished (res (completed line mid)) = false).
  { cbn. now rewrite (ho_finished Hpre). }
  destruct (@sent_first chunk encoding None _ Hfin) as [_ [Hw _]].
  destruct (sent_status chunk encoding None (completed line mid))
    as [Hst [Hck [Hcon _]]].
  exists pre. repeat split.
  - rewrite Hcon. cbn [completed console].
    rewrite (ho_console Hpre). cbn [entry1 entered console renewed with_res].
    now rewrite <- !app_assoc.
  - apply (ho_lines Hpre).
  - rewrite <- Hc. apply (ho_clock Hpre).
  - rewrite Hck. reflexivity.
  - rewrite Hw. cbn [completed res].
    now rewrite (ho_wire Hpre), Hwire.
  - rewrite Hst. reflexivity.
Qed.

(** api-service-2: the completion line is written by the ['finish']
    listener, after the native [end]. *)
Lemma service2_shape req h s :
  ends_last_opt h ->
  let mid := ending_state E req h (entry2 E req s) in
  let chunk := fst (ending_chunk E req h (entry2 E req s)) in
  let encoding := snd (ending_chunk E req h (entry2 E req s)) in
  exists pre,
    console (serve2 E req h s) =
      (console s ++ [start_line2 E req (renewed s)] ++ pre ++
       [complete_line2 E req (clockReads s) mid])%list /\
    Forall from_handler pre /\
    (S (S (clockReads s)) <= clockReads mid)%nat /\
    clockReads (serve2 E req h s) = S (S (clockReads mid)) /\
    wire (res (serve2 E req h s)) =
      [{| sentStatus := statusCode (res mid); sentChunk := chunk;
          sentEncoding := encoding |}] /\
    statusCode (res (serve2 E req h s)) = statusCode (res mid).
Proof.
  intros Hh mid chunk encoding. rewrite (serve2_unfold req h s Hh).
  destruct (ending_state_only req h (entry2 E req s)) as [pre Hpre].
  fold mid chunk encoding in Hpre |- *.
  set (callback := ending_callback E req h (entry2 E req s)).
  destruct (entry2_fresh req s) as [Hf [Hs [Hwire Hc]]].
  assert (Hfin : finished (res mid) = false).
  { now rewrite (ho_finished Hpre). }
  destruct (@sent_first chunk encoding callback _ Hfin) as [_ [Hw _]].
  destruct (sent_status chunk encoding callback mid) as [Hst [Hck [Hcon _]]].
  rewrite complete_line2_sent.
  exists pre. repeat split.
  - cbn [completed console]. rewrite Hcon.
    rewrite (ho_console Hpre). cbn [entry2 entered console renewed with_res].
    now rewrite <- !app_assoc.
  - apply (ho_lines Hpre).
  - rewrite <- Hc. apply (ho_clock Hpre).
  - cbn [completed clockReads]. now rewrite Hck.
  - cbn [completed res]. rewrite Hw.
    now rewrite (ho_wire Hpre), Hwire.
  - cbn [completed res]. exact Hst.
Qed.

End Shape.

Section Fields.

Variable E : Env.

Lemma start_line1_fields req s :
  site (start_line1 E req s) = SiteStart /\
  field "requestId" (event (start_line1 E req s)) = Some (JStr (id_of E req s)) /\
  field "timestamp" (event (start_line1 E req s)) =
    Some (JIso (dateNow E (S (clockReads s)))).
Proof.
  unfold start_line1, Service1.started_event, json_stringify, of_option.
  destruct (ip req), (req_get "User-Agent" req); cbn; auto.
Qed.

Lemma start_line2_fields req s :
  site (start_line2 E req s) = SiteStart /\
  field "requestId" (event (start_line2 E req s)) = Some (JStr (id_of E req s)) /\
  field "timestamp" (event (start_line2 E req s)) =
    Some (JIso (dateNow E (S (clockReads s)))).
Proof.
  unfold start_line2, Service2.started_event, json_stringify, of_option.
  destruct (ip req), (req_get "User-Agent" req); cbn; auto.
Qed.

Lemma complete_line1_fields req rid c s :
  site (complete_line1 E req rid c s) = SiteComplete /\
  field "requestId" (event (complete_line1 E req rid c s)) = Some (JStr rid) /\
  field "statusCode" (event (complete_line1 E req rid c s)) =
    Some (JNum (statusCode (res s))) /\
  field "duration" (event (complete_line1 E req rid c s)) =
    Some (JNum (dateNow E (clockReads s) - dateNow E c)) /\
  field "timestamp" (event (complete_line1 E req rid c s)) =
    Some (JIso (dateNow E (S (clockReads s)))).
Proof. cbn. auto. Qed.

Lemma complete_line2_fields req c s :
  site (complete_line2 E req c s) = SiteComplete /\
  field "requestId" (event (complete_line2 E req c s)) = None /\
  field "statusCode" (event (complete_line2 E req c s)) =
    Some (JNum (statusCode (res s))) /\
  field "duration" (event (complete_line2 E req c s)) =
    Some (JNum (dateNow E (clockReads s) - dateNow E c)) /\
  field "timestamp" (event (complete_line2 E req c s)) =
    Some (JIso (dateNow E (S (clockReads s)))).
Proof. cbn. auto. Qed.

End Fields.

Ltac ends_last_steps :=
  repeat (first
    [ apply last_end
    | apply last_do; [reflexivity | intro]
    | match goal with
      | |- ends_last _ (if ?b then _ else _) => destruct b
      | |- ends_last _ (match ?x with inl _ => _ | inr _ => _ end) => destruct x
      end ]).

(** [res.send] ends the response, and nothing of it comes after. *)
Lemma express_send_ends_last A ph buffer (a : A) :
  ends_last ph (express_send buffer (Ret a)).
Proof. unfold express_send. ends_last_steps. Qed.

(** Every route handler of the two services ends the response as its last
    step, on every path, and none throws. *)
Lemma service1_handlers_end_last r : ends_last InHandler (Service1.handler r).
Proof.
  destruct r; cbn; unfold res_json, res_send, express_send; ends_last_steps.
Qed.

Lemma service2_handlers_end_last r : ends_last InHandler (Service2.handler r).
Proof.
  destruct r; cbn; unfold res_json, res_send, express_send; ends_last_steps.
Qed.

Lemma service1_routes_end_last route :
  ends_last_opt (option_map Service1.handler route).
Proof.
  destruct route; cbn [option_map ends_last_opt]; auto.
  apply service1_handlers_end_last.
Qed.

Lemma service2_routes_end_last route :
  ends_last_opt (option_map Service2.handler route).
Proof.
  destruct route; cbn [option_map ends_last_opt]; auto.
  apply service2_handlers_end_last.
Qed.

(** * The properties of the specification *)

Lemma served1 E req h s : served ApiService1 E req h s = serve1 E req h s.
Proof. reflexivity. Qed.

Lemma served2 E req h s : served ApiService2 E req h s = serve2 E req h s.
Proof. reflexivity. Qed.

Lemma fresh_start_line1 E req s :
  start_line1 E req (renewed s) = start_line1 E req s.
Proof.
  unfold start_line1. rewrite (@id_of_draws E req (renewed s) s) by reflexivity.
  reflexivity.
Qed.

Lemma fresh_start_line2 E req s :
  start_line2 E req (renewed s) = start_line2 E req s.
Proof.
  unfold start_line2. rewrite (@id_of_draws E req (renewed s) s) by reflexivity.
  reflexivity.
Qed.

Lemma at_next_entered svc E req s :
  at_next svc E req s =
  entered (start_line svc E req s) (drew req) (renewed s).
Proof.
  unfold at_next. destruct svc; cbn [middleware_of start_line].
  - rewrite middleware1_enter. cbn [ret snd sys accept].
    fold (renewed s). now rewrite fresh_start_line1.
  - rewrite middleware2_enter. cbn [ret snd sys accept].
    fold (renewed s). now rewrite fresh_start_line2.
Qed.

Lemma at_next1 E req s : at_next ApiService1 E req s = entry1 E req s.
Proof.
  rewrite at_next_entered. unfold entry1. cbn [start_line].
  now rewrite fresh_start_line1.
Qed.

Lemma at_next2 E req s : at_next ApiService2 E req s = entry2 E req s.
Proof.
  rewrite at_next_entered. unfold entry2. cbn [start_line].
  now rewrite fresh_start_line2.
Qed.

(** [res.send] up to its call of [res.end]. *)
Lemma advance_express_send E req A ph buffer (k : Prog A) s :
  advance E req ph (express_send buffer k) s =
  (Ending ph
     (send_chunk req buffer (send_status E req buffer (statusCode (res s))))
     None None (fun _ => k),
   sending E req buffer s).
Proof.
  unfold express_send, sending, send_status, send_chunk.
  cbn [advance]. unfold get_fresh, get_status, set_status, with_res, ret.
  destruct s as [[code hs fin w cbs] con hist c r n].
  cbn [res statusCode headersSent finished wire endCallbacks console histogram
       clockReads randomDraws remoteCalls].
  destruct (req_fresh E req code buffer);
    cbn [advance get_status set_status with_res res statusCode];
    destruct (String.eqb (method req) "HEAD"); reflexivity.
Qed.

Lemma advance_res_json E req A ph object (k : Prog A) s :
  advance E req ph (res_json object k) s =
  (Ending ph
     (send_chunk req (BBufferJson (json_stringify object))
        (send_status E req (BBufferJson (json_stringify object))
           (statusCode (res s))))
     None None (fun _ => k),
   sending E req (BBufferJson (json_stringify object)) s).
Proof. apply advance_express_send. Qed.

Lemma advance_res_send E req A ph text (k : Prog A) s :
  advance E req ph (res_send text k) s =
  (Ending ph
     (send_chunk req (BBufferText text)
        (send_status E req (BBufferText text) (statusCode (res s))))
     None None (fun _ => k),
   sending E req (BBufferText text) s).
Proof. apply advance_express_send. Qed.

(** A request without a validator is never fresh, and neither is a
    response with an error status. *)
Lemma unconditional_not_fresh E req code chunk :
  conditional req = false -> req_fresh E req code chunk = false.
Proof.
  unfold conditional, req_fresh, fresh. intro H.
  apply orb_false_iff in H. destruct H as [-> ->]. cbn.
  destruct (negb _ && negb _); [reflexivity | ].
  destruct (_ || _); reflexivity.
Qed.



(** The lines of one request, for either service, with the clock readings
    they carry: [mid] is the state in which [res.end] is called. *)
Lemma request_lines svc E req h s :
  ends_last_opt h ->
  let mid := ending_state E req h (at_next svc E req s) in
  exists startEv doneEv pre,
    console (served svc E req h s) =
      (console s ++ request_log startEv doneEv pre)%list /\
    Forall from_handler pre /\
    (S (S (clockReads s)) <= clockReads mid)%nat /\
    clockReads (served svc E req h s) = S (S (clockReads mid)) /\
    field "requestId" startEv = Some (JStr (id_of E req s)) /\
    field "timestamp" startEv = Some (JIso (dateNow E (S (clockReads s)))) /\
    field "timestamp" doneEv = Some (JIso (dateNow E (S (clockReads mid)))) /\
    field "duration" doneEv =
      Some (JNum (dateNow E (clockReads mid) - dateNow E (clockReads s))) /\
    field "statusCode" doneEv = Some (JNum (statusCode (res mid))) /\
    field "requestId" doneEv =
      match svc with
      | ApiService1 => Some (JStr (id_of E req s))
      | ApiService2 => None
      end /\
    wire (res (served svc E req h s)) =
      [{| sentStatus := statusCode (res mid);
          sentChunk := fst (ending_chunk E req h (at_next svc E req s));
          sentEncoding := snd (ending_chunk E req h (at_next svc E req s)) |}] /\
    statusCode (res (served svc E req h s)) = statusCode (res mid).
Proof.
  intros Hh mid. unfold mid. clear mid. destruct svc.
  - rewrite served1, at_next1.
    destruct (@service1_shape E req h s Hh)
      as [pre [Hc [Hpre [Hk [Hck [Hw Hst]]]]]].
    set (mid := ending_state E req h (entry1 E req s)) in *.
    destruct (start_line1_fields E req s) as [_ [Hid Hts]].
    destruct (complete_line1_fields E req (id_of E req s) (clockReads s) mid)
      as [_ [Hrid [Hcode [Hdur Hdone]]]].
    rewrite fresh_start_line1 in Hc.
    rewrite (@id_of_draws E req (renewed s) s) in Hc by reflexivity.
    exists (event (start_line1 E req s)),
           (event (complete_line1 E req (id_of E req s) (clockReads s) mid)),
           pre.
    repeat split; auto.
  - rewrite served2, at_next2.
    destruct (@service2_shape E req h s Hh)
      as [pre [Hc [Hpre [Hk [Hck [Hw Hst]]]]]].
    set (mid := ending_state E req h (entry2 E req s)) in *.
    destruct (start_line2_fields E req s) as [_ [Hid Hts]].
    destruct (complete_line2_fields E req (clockReads s) mid)
      as [_ [Hrid [Hcode [Hdur Hdone]]]].
    rewrite fresh_start_line2 in Hc.
    exists (event (start_line2 E req s)),
           (event (complete_line2 E req (clockReads s) mid)),
           pre.
    repeat split; auto.
Qed.

(** *** C3: one start line, then one completion line *)




Lemma sample_clock_steady random :
  steady (Sample.env (fun n => 1000 + Z.of_nat n) random).
Proof. intros i j Hij. cbv [dateNow Sample.env]. lia. Defined.


(** A handler that writes a line and throws: the final handler answers
    500 and both lines of the middleware are there.  When the handler had
    set status 403 before, that is the status sent and reported. *)
Example faulty_handler_is_logged :
  let E := Sample.env (fun n => 1000 + Z.of_nat n) (fun _ => 0) in
  let req := Sample.get "/" [("x-request-id", "abc123")] in
  let faulty : Prog unit :=
    call ConsoleLog [("message", JStr "about to fail")] ;; Throw "boom" in
  let forbidden : Prog unit :=
    call ResStatus 403 eq_refl ;; Throw "boom" in
  map (fun l => (site l, field "statusCode" (event l)))
      (console (served ApiService1 E req (Some faulty) Sample.idle)) =
    [ (SiteStart, None); (SiteHandler, None); (SiteComplete, Some (JNum 500)) ] /\
  map (fun l => (site l, field "statusCode" (event l)))
      (console (served ApiService2 E req (Some faulty) Sample.idle)) =
    [ (SiteStart, None); (SiteHandler, None); (SiteComplete, Some (JNum 500)) ] /\
  map sentStatus (wire (res (served ApiService2 E req (Some faulty) Sample.idle))) =
    [500] /\
  map (fun l => (site l, field "statusCode" (event l)))
      (console (served ApiService2 E req (Some forbidden) Sample.idle)) =
    [ (SiteStart, None); (SiteComplete, Some (JNum 403)) ] /\
  map sentStatus (wire (res (served ApiService2 E req (Some forbidden) Sample.idle))) =
    [403].
Proof.
  intros E req faulty forbidden.
  split; [vm_compute; reflexivity | ].
  split; [vm_compute; reflexivity | ].
  split; [vm_compute; reflexivity | ].
  split; vm_compute; reflexivity.
Qed.


(** *** C5: the reported duration *)




(** *** C1: the correlation identifier on both lines *)

(** C1 at a request to api-service-2 that carries [X-Request-ID: abc123]:
    the start line has the identifier, the completion line written by the
    ['finish'] listener has no [requestId] property at all. *)
Theorem service2_completion_line_lacks_request_id :
  let E := Sample.env (fun n => 1000 + Z.of_nat n) (fun _ => 0) in
  let req := Sample.get "/random-fail" [("x-request-id", "abc123")] in
  map (fun l => (site l, field "requestId" (event l)))
      (console (sys (snd (Service2.handle E req (Some Service2.RandomFail)
                            (accept Sample.idle))))) =
  [ (SiteStart, Some (JStr "abc123"));
    (SiteHandler, None); (SiteHandler, None);
    (SiteComplete, None) ].
Proof. vm_compute. reflexivity. Qed.

(** That holds for every request to api-service-2. *)
Lemma service2_completion_never_has_request_id E req h s :
  ends_last_opt h ->
  exists startEv doneEv mid,
    console (served ApiService2 E req h s) =
      (console s ++ request_log startEv doneEv mid)%list /\
    Forall from_handler mid /\
    field "requestId" startEv = Some (JStr (id_of E req s)) /\
    field "requestId" doneEv = None.
Proof.
  intro Hh.
  destruct (@request_lines ApiService2 E req h s Hh)
    as [startEv [doneEv [pre
         [Hc [Hpre [_ [_ [Hid [_ [_ [_ [_ [Hid' _]]]]]]]]]]]]].
  exists startEv, doneEv, pre. auto.
Qed.

(** api-service-1 does what C1 says: both lines carry the identifier the
    middleware settled on. *)
Lemma service1_lines_share_request_id E req h s :
  ends_last_opt h ->
  exists startEv doneEv mid,
    console (served ApiService1 E req h s) =
      (console s ++ request_log startEv doneEv mid)%list /\
    Forall from_handler mid /\
    field "requestId" startEv = Some (JStr (id_of E req s)) /\
    field "requestId" doneEv = Some (JStr (id_of E req s)).
Proof.
  intro Hh.
  destruct (@request_lines ApiService1 E req h s Hh)
    as [startEv [doneEv [pre
         [Hc [Hpre [_ [_ [Hid [_ [_ [_ [_ [Hid' _]]]]]]]]]]]]].
  exists startEv, doneEv, pre. auto.
Qed.

(** *** C9: the delay picked by /heavy-task *)

Module DoubleFacts.

Import Double.

Lemma unit_intervalb_true m : unit_intervalb m = true -> unit_interval m.
Proof.
  unfold unit_intervalb, is_doubleb, unit_interval, is_double. intro H.
  apply andb_true_iff in H. destruct H as [H Hlt].
  apply andb_true_iff in H. destruct H as [Hle Hfix].
  apply Z.leb_le in Hle. apply Z.eqb_eq in Hfix. apply Z.ltb_lt in Hlt. auto.
Defined.

Lemma round53_nonneg n : 0 <= n -> 0 <= round53 n.
Proof.
  intro Hn. unfold round53.
  destruct (Z.log2 n - 52 <=? 0) eqn:Hs; [exact Hn | ].
  apply Z.leb_gt in Hs.
  assert (Hp : 0 < 2 ^ (Z.log2 n - 52)) by (apply Z.pow_pos_nonneg; lia).
  assert (Hq : 0 <= n / 2 ^ (Z.log2 n - 52)) by (apply Z.div_pos; lia).
  destruct (_ || _); nia.
Qed.

(** Rounding never passes the next power of two. *)
Lemma round53_le_pow2 n : 0 < n -> round53 n <= 2 ^ (Z.log2 n + 1).
Proof.
  intro Hn. pose proof (Z.log2_spec n Hn) as [Hlo Hhi].
  replace (Z.succ (Z.log2 n)) with (Z.log2 n + 1) in Hhi by lia.
  unfold round53.
  destruct (Z.log2 n - 52 <=? 0) eqn:Hs; [lia | ].
  apply Z.leb_gt in Hs.
  set (s := Z.log2 n - 52) in *.
  assert (Hp : 0 < 2 ^ s) by (apply Z.pow_pos_nonneg; lia).
  assert (Hsplit : 2 ^ (Z.log2 n + 1) = 2 ^ 53 * 2 ^ s).
  { rewrite <- Z.pow_add_r by lia. f_equal. unfold s. lia. }
  assert (Hq : n / 2 ^ s < 2 ^ 53).
  { apply Z.div_lt_upper_bound; lia. }
  rewrite Hsplit.
  destruct (_ || _); nia.
Qed.

Lemma one_split : one = 2 ^ 53 * 2 ^ 1021.
Proof. unfold one. rewrite <- Z.pow_add_r by lia. reflexivity. Qed.

(** A double in [1/2, 1) is a multiple of 2^-53. *)
Lemma top_binade r :
  unit_interval r -> 2 ^ 1073 <= r ->
  exists m, r = m * 2 ^ 1021 /\ m < 2 ^ 53.
Proof.
  intros [[Hr Hfix] Hlt] Hlo.
  assert (Hlog : Z.log2 r = 1073).
  { apply Z.log2_unique; [lia | ]. split; [exact Hlo | exact Hlt]. }
  unfold round53 in Hfix. rewrite Hlog in Hfix.
  change (1073 - 52) with 1021 in Hfix.
  change (1021 <=? 0) with false in Hfix. cbv beta iota zeta in Hfix.
  assert (Hp : 0 < 2 ^ 1021) by (apply Z.pow_pos_nonneg; lia).
  rewrite one_split in Hlt.
  destruct (_ || _).
  - exists (r / 2 ^ 1021 + 1). split; [lia | nia].
  - exists (r / 2 ^ 1021). split; [lia | nia].
Qed.

(** [r * 5] stays below 5 after rounding, for every double [r] below 1. *)
Lemma mul5_below r : unit_interval r -> mul r 5 < 5 * one.
Proof.
  intros Hu. pose proof Hu as [[Hr Hfix] Hlt].
  assert (Hone : 0 < one) by (apply Z.pow_pos_nonneg; lia).
  unfold mul.
  destruct (Z.eq_dec r 0) as [-> | Hnz]; [cbn; lia | ].
  assert (Hn : 0 < r * 5) by lia.
  destruct (Z_lt_le_dec (r * 5) (2 ^ 1076)) as [Hsmall | Hbig].
  - pose proof (round53_le_pow2 Hn) as Hle.
    assert (Hlog : Z.log2 (r * 5) < 1076) by (apply Z.log2_lt_pow2; lia).
    assert (Hpow : 2 ^ (Z.log2 (r * 5) + 1) <= 2 ^ 1076)
      by (apply Z.pow_le_mono_r; lia).
    assert (H4 : 2 ^ 1076 = 4 * one).
    { unfold one. change 1076 with (2 + 1074). rewrite Z.pow_add_r by lia.
      reflexivity. }
    lia.
  - assert (Hp : 0 < 2 ^ 1021) by (apply Z.pow_pos_nonneg; lia).
    assert (H1076 : 2 ^ 1076 = 2 ^ 55 * 2 ^ 1021).
    { rewrite <- Z.pow_add_r by lia. reflexivity. }
    assert (H1073 : 2 ^ 1073 = 2 ^ 52 * 2 ^ 1021).
    { rewrite <- Z.pow_add_r by lia. reflexivity. }
    assert (H1077 : 2 ^ 1077 = 2 ^ 56 * 2 ^ 1021).
    { rewrite <- Z.pow_add_r by lia. reflexivity. }
    assert (H1024 : 2 ^ 1024 = 8 * 2 ^ 1021).
    { change 1024 with (3 + 1021). rewrite Z.pow_add_r by lia. reflexivity. }
    assert (H1023 : 2 ^ 1023 = 4 * 2 ^ 1021).
    { change 1023 with (2 + 1021). rewrite Z.pow_add_r by lia. reflexivity. }
    destruct (@top_binade r Hu) as [m [Hm Hm53]]; [nia | ].
    assert (Hlog : Z.log2 (r * 5) = 1076).
    { apply Z.log2_unique; [lia | ]. split; [exact Hbig | ].
      change (Z.succ 1076) with 1077. rewrite one_split in Hlt. nia. }
    unfold round53. rewrite Hlog.
    change (1076 - 52) with 1024. change (1024 - 1) with 1023.
    change (1024 <=? 0) with false. cbv beta iota zeta.
    rewrite H1024, H1023, one_split. subst r.
    remember (2 ^ 1021) as P eqn:HP. clear HP.
    replace (m * P * 5) with (5 * m * P) by ring.
    rewrite Z.div_mul_cancel_r by lia.
    rewrite Z.mul_mod_distr_r by lia.
    change (2 ^ 53) with 9007199254740992 in *.
    pose proof (Z.div_mod (5 * m) 8 ltac:(lia)) as Hdm.
    pose proof (Z.mod_pos_bound (5 * m) 8 ltac:(lia)) as Hmod.
    set (q := 5 * m / 8) in *. set (a := (5 * m) mod 8) in *.
    destruct ((4 * P <? a * P) || ((a * P =? 4 * P) && Z.odd q)) eqn:Hup.
    + assert (Ha : 4 <= a).
      { apply orb_true_iff in Hup. destruct Hup as [Hup | Hup].
        - apply Z.ltb_lt in Hup. nia.
        - apply andb_true_iff in Hup. destruct Hup as [Hup _].
          apply Z.eqb_eq in Hup. nia. }
      assert (q + 1 < 5 * 1125899906842624) by lia.
      nia.
    + assert (q < 5 * 1125899906842624) by lia.
      nia.
Qed.

End DoubleFacts.

(** C9.  Whatever double in [0, 1) [Math.random()] returns, the index
    [Math.floor(Math.random() * delays.length)] is one of 0..4 (the product
    is rounded to a double before the floor), so the delay read from the
    array is one of its five entries and never [undefined]. *)
Theorem heavy_task_delay_is_in_table r :
  Double.unit_interval r ->
  0 <= Service1.delay_index r < 5 /\
  exists d, Service1.element (Service1.delay_index r) = JNum d /\
            In d [100; 200; 500; 1000; 3000].
Proof.
  intro Hu. pose proof (DoubleFacts.mul5_below Hu) as Hlt.
  pose proof Hu as [[Hr _] _].
  assert (Hone : 0 < Double.one) by (apply Z.pow_pos_nonneg; lia).
  assert (Hpos : 0 <= Double.mul r 5)
    by (apply DoubleFacts.round53_nonneg; lia).
  assert (Hidx : 0 <= Service1.delay_index r < 5).
  { unfold Service1.delay_index, Double.floor.
    change (Z.of_nat (List.length Service1.delays)) with 5. split.
    - apply Z.div_pos; lia.
    - apply Z.div_lt_upper_bound; lia. }
  split; [exact Hidx | ].
  assert (Hcase : Service1.delay_index r = 0 \/ Service1.delay_index r = 1 \/
                  Service1.delay_index r = 2 \/ Service1.delay_index r = 3 \/
                  Service1.delay_index r = 4) by lia.
  destruct Hcase as [-> | [-> | [-> | [-> | ->]]]]; cbn; eexists; split;
    try reflexivity; auto 6.
Qed.

Lemma heavy_task_delay_is_in_table_witness :
  Double.unit_interval (Double.one - 2 ^ 1021) /\
  0 <= Service1.delay_index (Double.one - 2 ^ 1021) < 5 /\
  exists d, Service1.element (Service1.delay_index (Double.one - 2 ^ 1021)) = JNum d /\
            In d [100; 200; 500; 1000; 3000].
Proof.
  assert (H : Double.unit_interval (Double.one - 2 ^ 1021)).
  { apply DoubleFacts.unit_intervalb_true. vm_compute. reflexivity. }
  split; [exact H | ].
  apply (heavy_task_delay_is_in_table H).
Defined.

(** The largest double below 1 picks the last entry. *)
Example heavy_task_last_delay :
  Service1.element (Service1.delay_index (Double.one - 2 ^ 1021)) = JNum 3000.
Proof. vm_compute. reflexivity. Qed.

(** *** C6: the generated identifier *)

(** C6 at [Math.random() = 0]: zero is a double in [0, 1), its base-36
    string is "0", and [substring(2)] of that is the empty string; a request
    without the header then gets the empty correlation identifier. *)
Theorem generated_id_is_empty_at_zero :
  let E := Sample.env (fun n => 1000 + Z.of_nat n) (fun _ => 0) in
  Double.unit_interval 0 /\
  Radix36.toString 0 = "0" /\
  fst (request_id E (Sample.get "/" []) Sample.idle) = EmptyString /\
  map (fun l => (site l, field "requestId" (event l)))
      (console (served ApiService1 E (Sample.get "/" [])
                  (Some Service1.health) Sample.idle)) =
  [ (SiteStart, Some (JStr EmptyString)); (SiteHandler, None);
    (SiteComplete, Some (JStr EmptyString)) ].
Proof.
  intro E. split; [ | split; [ | split]].
  - apply DoubleFacts.unit_intervalb_true. vm_compute. reflexivity.
  - vm_compute. reflexivity.
  - vm_compute. reflexivity.
  - vm_compute. reflexivity.
Qed.

(** The literals [0.2] and [0.3] as doubles. *)
Lemma literals_as_doubles :
  Double.of_decimal 2 1 = 3602879701896397 * 2 ^ 1020 /\
  Service2.threshold = 5404319552844595 * 2 ^ 1020.
Proof. split; vm_compute; reflexivity. Qed.

(** The same code at one half: [(0.5).toString(36)] is "0.i". *)
Example generated_id_at_one_half :
  Radix36.toString (Double.one / 2) = "0.i" /\
  substring_from 2 (Radix36.toString (Double.one / 2)) = "i".
Proof. split; vm_compute; reflexivity. Qed.

(** *** Requests through the route handlers *)

Ltac split_paths :=
  repeat match goal with
    | |- context [if (?a <? ?b) then _ else _] => destruct (a <? b)
    | |- context [axiosGet ?E ?n] => destruct (axiosGet E n)
    | |- context [is_defined ?v] => destruct (is_defined v)
    end.

Ltac send_paths := rewrite ?advance_res_json, ?advance_res_send.

Ltac walk1 :=
  cbn -[res_json res_send Service1.element Service1.delay_index
        Double.of_decimal Z.ltb id_of template decimal].

Ltac walk2 :=
  cbn -[res_json res_send Service2.threshold Z.ltb id_of].

(** Follow a handler of api-service-1 on each of its paths, up to the
    state in which it calls [res.end]. *)
Ltac paths1 :=
  walk1; repeat (progress split_paths; walk1); send_paths;
  cbn -[Service1.element Service1.delay_index Double.of_decimal Z.ltb
        id_of template decimal send_status send_chunk].

Ltac paths2 :=
  walk2; repeat (progress split_paths; walk2); send_paths;
  cbn -[Service2.threshold Z.ltb id_of send_status send_chunk].

Ltac through_service1 :=
  rewrite served1, serve1_unfold by apply service1_routes_end_last;
  unfold ending_state, ending_chunk.

Ltac through_service2 :=
  rewrite served2, serve2_unfold by apply service2_routes_end_last;
  unfold ending_state, ending_chunk, ending_callback.

(** *** C10: /random-fail *)



(** *** C7: choosing the correlation identifier *)

Lemma start_line_fields svc E req s :
  site (start_line svc E req s) = SiteStart /\
  field "requestId" (event (start_line svc E req s)) =
    Some (JStr (id_of E req s)).
Proof.
  destruct svc; cbn [start_line].
  - destruct (start_line1_fields E req s) as [H1 [H2 _]]. auto.
  - destruct (start_line2_fields E req s) as [H1 [H2 _]]. auto.
Qed.

(** C7.  In both services the middleware takes the value of the
    [X-Request-ID] header as it is when the header is present and not empty,
    without drawing a random number; when the header is absent or empty it
    generates [Math.random().toString(36).substring(2)] from one draw.  In
    either case it goes on to write its start line with that identifier:
    nothing in it can throw. *)
Theorem correlation_id_selection svc E req s :
  (forall v, req_get "X-Request-ID" req = Some v -> v <> EmptyString ->
     request_id E req s = (v, s) /\
     exists line,
       console (at_next svc E req s) = (console s ++ [line])%list /\
       site line = SiteStart /\
       field "requestId" (event line) = Some (JStr v)) /\
  (req_get "X-Request-ID" req = None \/ req_get "X-Request-ID" req = Some EmptyString ->
     request_id E req s = random_id E s /\
     exists line,
       console (at_next svc E req s) = (console s ++ [line])%list /\
       site line = SiteStart /\
       field "requestId" (event line) =
         Some (JStr (substring_from 2
                       (Radix36.toString (mathRandom E (randomDraws s)))))).
Proof.
  destruct (start_line_fields svc E req s) as [Hsite Hid].
  split.
  - intros v Hv Hne.
    assert (Hreq : request_id E req s = (v, s)).
    { unfold request_id, or_else, truthy. rewrite Hv.
      destruct (String.eqb_spec v EmptyString); [contradiction | reflexivity]. }
    split; [exact Hreq | ].
    exists (start_line svc E req s). rewrite at_next_entered.
    split; [reflexivity | split; [exact Hsite | ]].
    rewrite Hid. unfold id_of. now rewrite Hreq.
  - intros Hnone.
    assert (Hreq : request_id E req s = random_id E s).
    { unfold request_id, or_else, truthy.
      destruct Hnone as [-> | ->]; reflexivity. }
    split; [exact Hreq | ].
    exists (start_line svc E req s). rewrite at_next_entered.
    split; [reflexivity | split; [exact Hsite | ]].
    rewrite Hid. unfold id_of. now rewrite Hreq.
Qed.

Lemma correlation_id_selection_witness :
  let E := Sample.env (fun n => 1000 + Z.of_nat n) (fun _ => Double.one / 2) in
  (req_get "X-Request-ID" (Sample.get "/" [("x-request-id", "abc123")])
     = Some "abc123" /\ "abc123" <> EmptyString /\
   request_id E (Sample.get "/" [("x-request-id", "abc123")]) Sample.idle
     = ("abc123", Sample.idle)) /\
  (req_get "X-Request-ID" (Sample.get "/" []) = None /\
   request_id E (Sample.get "/" []) Sample.idle = random_id E Sample.idle).
Proof.
  intro E. split.
  - assert (H1 : req_get "X-Request-ID"
                   (Sample.get "/" [("x-request-id", "abc123")]) = Some "abc123")
      by reflexivity.
    assert (H2 : "abc123" <> EmptyString) by discriminate.
    split; [exact H1 | split; [exact H2 | ]].
    exact (proj1 (proj1 (correlation_id_selection ApiService1 E
                           (Sample.get "/" [("x-request-id", "abc123")])
                           Sample.idle) "abc123" H1 H2)).
  - assert (H1 : req_get "X-Request-ID" (Sample.get "/" []) = None)
      by reflexivity.
    split; [exact H1 | ].
    exact (proj1 (proj2 (correlation_id_selection ApiService2 E
                           (Sample.get "/" []) Sample.idle) (or_introl H1))).
Defined.

(** *** C2: what reaches the histogram *)



(** *** C8: the response is the handler's *)

Section Transparency.

Variable E : Env.

Lemma node_end_forwards : forwards node_end.
Proof. intros chunk encoding callback s. exists s, callback. auto. Qed.

Lemma logging_end_is_forwarding req start rid originalEnd :
  forwards originalEnd ->
  forwards (Service1.logging_end E req start rid originalEnd).
Proof.
  intros Ho chunk encoding callback s.
  unfold Service1.logging_end, bind. cbn.
  match goal with
  | |- context [originalEnd chunk encoding None ?s0] =>
      destruct (Ho chunk encoding None s0) as [s1 [callback' [Hr Hs1]]]
  end.
  exists s1, callback'. split; [exact Hr | exact Hs1].
Qed.

Lemma finish_listener_leaves_response req start :
  leaves_response (Service2.finish_listener E req start).
Proof. intro s. reflexivity. Qed.

Lemma process_loggers_leave_response svc m :
  leaves_response (uncaughtException (app_of svc E) m) /\
  leaves_response (unhandledRejection (app_of svc E) m).
Proof. destruct svc; split; intro s; reflexivity. Qed.

Lemma run_listeners_response ls :
  Forall leaves_response ls ->
  forall s, res (snd (run_listeners ls s)) = res s.
Proof.
  induction 1 as [ | l ls Hl Hls IH]; intro s; cbn; [reflexivity | ].
  unfold bind. specialize (Hl s). destruct (l s) as [u s1]. cbn in Hl.
  rewrite IH. exact Hl.
Qed.

Lemma emit_finish_response w :
  Forall leaves_response (finishListeners w) ->
  res (sys (snd (emit_finish w))) = res (sys w) /\
  resEnd (snd (emit_finish w)) = resEnd w /\
  finishListeners (snd (emit_finish w)) = finishListeners w.
Proof.
  intro H. unfold emit_finish.
  destruct (finished (res (sys w)) && negb (finishEmitted w)); cbn;
    [ | auto].
  split; [apply run_listeners_response; exact H | auto].
Qed.

(** Once the response has ended, a step of the handler changes nothing of
    what was sent. *)
Lemma perform_after_finish req X (e : Effect X) w :
  finished (res (sys w)) = true ->
  headersSent (res (sys w)) = true ->
  forwards (resEnd w) ->
  let w1 := snd (perform E req e w) in
  wire (res (sys w1)) = wire (res (sys w)) /\
  finished (res (sys w1)) = true /\
  headersSent (res (sys w1)) = true /\
  resEnd w1 = resEnd w /\
  finishListeners w1 = finishListeners w.
Proof.
  intros Hf Hs Hfw.
  destruct e; cbn; try (repeat split; auto; fail).
  unfold res_end, lift.
  destruct (Hfw chunk encoding callback (sys w)) as [s1 [callback' [Hr Hs1]]].
  rewrite Hs1. unfold node_end. rewrite Hr, Hf.
  destruct callback'; cbn; rewrite ?Hr; repeat split; auto.
Qed.

Lemma run_after_finish req A (p : Prog A) : forall ph w,
  finished (res (sys w)) = true ->
  headersSent (res (sys w)) = true ->
  forwards (resEnd w) ->
  Forall leaves_response (finishListeners w) ->
  let w' := snd (run E req ph p w) in
  wire (res (sys w')) = wire (res (sys w)) /\
  finished (res (sys w')) = true /\
  headersSent (res (sys w')) = true /\
  resEnd w' = resEnd w /\
  finishListeners w' = finishListeners w.
Proof.
  induction p as [a | m | X e k IH]; intros ph w Hf Hs Hfw Hls; cbn [run].
  - cbn. auto.
  - cbn. auto.
  - assert (Hemit : let w0 := snd ((if yields e then emit_finish else ret tt) w) in
              res (sys w0) = res (sys w) /\
              resEnd w0 = resEnd w /\
              finishListeners w0 = finishListeners w).
    { destruct (yields e); [apply emit_finish_response; exact Hls | cbn; auto]. }
    destruct ((if yields e then emit_finish else ret tt) w) as [u w0].
    cbn [snd] in Hemit. destruct Hemit as [E1 [E2 E3]].
    assert (Hf0 : finished (res (sys w0)) = true) by (rewrite E1; exact Hf).
    assert (Hs0 : headersSent (res (sys w0)) = true) by (rewrite E1; exact Hs).
    assert (Hfw0 : forwards (resEnd w0)) by (rewrite E2; exact Hfw).
    pose proof (@perform_after_finish req X e w0 Hf0 Hs0 Hfw0) as Hstep.
    destruct (perform E req e w0) as [x w1]. cbn [snd] in Hstep.
    destruct Hstep as [H1 [H2 [H3 [H4 H5]]]].
    assert (Hfw1 : forwards (resEnd w1)) by (rewrite H4; exact Hfw0).
    assert (Hls1 : Forall leaves_response (finishListeners w1))
      by (rewrite H5, E3; exact Hls).
    destruct (IH x (next_phase ph e) w1 H2 H3 Hfw1 Hls1)
      as [G1 [G2 [G3 [G4 G5]]]].
    repeat split; congruence.
Qed.

Lemma res_end_forwarding chunk encoding callback w :
  forwards (resEnd w) ->
  finished (res (sys w)) = false ->
  exists s1,
    res_end chunk encoding callback w = (JThis, put s1 w) /\
    finished (res s1) = true /\
    headersSent (res s1) = true /\
    wire (res s1) =
      (wire (res (sys w)) ++
       [{| sentStatus := statusCode (res (sys w)); sentChunk := chunk;
           sentEncoding := encoding |}])%list.
Proof.
  intros Hfw Hf.
  destruct (Hfw chunk encoding callback (sys w)) as [s0 [callback' [Hr Hs0]]].
  exists (sent chunk encoding callback' s0).
  assert (Hf0 : finished (res s0) = false) by (rewrite Hr; exact Hf).
  destruct (@sent_first chunk encoding callback' s0 Hf0) as [H1 [H2 _]].
  split; [ | split; [apply sent_finished | split; [exact H1 | ]]].
  - unfold res_end, lift, put. rewrite Hs0, node_end_sent. reflexivity.
  - rewrite H2, Hr. reflexivity.
Qed.

Lemma finalhandler_responds error req w :
  forwards (resEnd w) ->
  finished (res (sys w)) = false ->
  headersSent (res (sys w)) = false ->
  let code := match error with
              | Some _ => error_status (statusCode (res (sys w)))
              | None => 404
              end in
  let w' := snd (finalhandler E error req w) in
  wire (res (sys w')) =
    (wire (res (sys w)) ++ [final_answer E error code req])%list /\
  finishListeners w' = finishListeners w.
Proof.
  intros Hfw Hf Hs code.
  rewrite (@finalhandler_unsent E error code req w Hs eq_refl).
  cbn [snd].
  match goal with
  | |- context [res_end ?c ?e ?b ?w0] =>
      destruct (@res_end_forwarding c e b w0) as [s1 [Hend [_ [_ Hw]]]];
        [exact Hfw | exact Hf | ]
  end.
  rewrite Hend. cbn [snd put sys finishListeners].
  split; [exact Hw | reflexivity].
Qed.

Lemma logger_keeps (l : Act unit) w :
  leaves_response l ->
  res (sys (snd (lift l w))) = res (sys w) /\
  finishListeners (snd (lift l w)) = finishListeners w.
Proof.
  intro Hl. unfold lift. specialize (Hl (sys w)).
  destruct (l (sys w)) as [u s1]. cbn in Hl |- *. auto.
Qed.

Lemma rejection_keeps (l : Act unit) w :
  Forall leaves_response (finishListeners w) ->
  leaves_response l ->
  res (sys (snd ((emit_finish ;; lift l) w))) = res (sys w) /\
  finishListeners (snd ((emit_finish ;; lift l) w)) = finishListeners w.
Proof.
  intros Hls Hl. unfold bind.
  destruct (emit_finish_response w Hls) as [E1 [_ E3]].
  destruct (emit_finish w) as [u w1]. cbn [snd] in *.
  destruct (logger_keeps w1 Hl) as [L1 L2].
  rewrite L1, L2. auto.
Qed.

(** Whatever forwarding [end] and whatever observing listeners are
    installed, what goes out is what the handler asked for. *)
Lemma respond_wire app req h w :
  finished (res (sys w)) = false ->
  headersSent (res (sys w)) = false ->
  wire (res (sys w)) = [] ->
  forwards (resEnd w) ->
  Forall leaves_response (finishListeners w) ->
  (forall m, leaves_response (uncaughtException app m)) ->
  (forall m, leaves_response (unhandledRejection app m)) ->
  wire (res (sys (snd ((dispatch E app req h ;; emit_finish) w)))) =
  handler_response E req h (sys w).
Proof.
  intros Hf Hs Hw Hfw Hls Hue Hur.
  assert (Hd : let w2 := snd (dispatch E app req h w) in
               wire (res (sys w2)) = handler_response E req h (sys w) /\
               finishListeners w2 = finishListeners w).
  { destruct h as [p | ]; cbn [dispatch handler_response].
    - unfold bind. rewrite run_advance by exact Hf.
      destruct (advance_handler_only E req p InHandler (sys w)) as [pre Hpre].
      destruct (advance E req InHandler p (sys w))
        as [[a | ph m | ph chunk encoding callback k] mid];
        cbn [snd] in Hpre.
      + cbn. rewrite (ho_wire Hpre). auto.
      + assert (Hfin : let w' := snd (finalhandler E (Some m) req (put mid w)) in
                  wire (res (sys w')) =
                  [final_answer E (Some m)
                     (error_status (statusCode (res mid))) req] /\
                  finishListeners w' = finishListeners w).
        { destruct (@finalhandler_responds (Some m) req (put mid w))
            as [G1 G2];
            [exact Hfw | cbn; now rewrite (ho_finished Hpre)
            | cbn; now rewrite (ho_headers Hpre) | ].
          cbn [put sys] in G1. rewrite (ho_wire Hpre), Hw in G1.
          split; [exact G1 | exact G2]. }
        assert (Hmid : wire (res (sys (put mid w))) = [] /\
                       Forall leaves_response (finishListeners (put mid w))).
        { cbn [put sys finishListeners]. rewrite (ho_wire Hpre). auto. }
        destruct Hmid as [Hmw Hmls].
        destruct ph; cbn [snd].
        * exact Hfin.
        * destruct (express5 E); [exact Hfin | ].
          destruct (@rejection_keeps (unhandledRejection app m) (put mid w)
                      Hmls (Hur m)) as [L1 L2].
          change (wire (res (sys (snd ((emit_finish ;;
                                        lift (unhandledRejection app m))
                                         (put mid w))))) = [] /\
                  finishListeners (snd ((emit_finish ;;
                                         lift (unhandledRejection app m))
                                          (put mid w))) = finishListeners w).
          rewrite L1, L2. auto.
        * destruct (@logger_keeps (uncaughtException app m) (put mid w) (Hue m))
            as [L1 L2].
          rewrite L1, L2. auto.
      + destruct (@res_end_forwarding chunk encoding callback (put mid w))
          as [s1 [Hend [F1 [F2 F3]]]];
          [exact Hfw | cbn; now rewrite (ho_finished Hpre) | ].
        rewrite Hend. cbn [put sys] in F3. rewrite (ho_wire Hpre), Hw in F3.
        destruct (@run_after_finish req _ (k JThis) ph (put s1 (put mid w)))
          as [G1 [G2 [G3 [G4 G5]]]];
          [exact F1 | exact F2 | exact Hfw | exact Hls | ].
        destruct (run E req ph (k JThis) (put s1 (put mid w))) as [r w3].
        cbn [snd put sys finishListeners] in *.
        assert (Hls3 : Forall leaves_response (finishListeners w3))
          by (rewrite G5; exact Hls).
        destruct r as [u | ph' m].
        * cbn. rewrite G1, F3. auto.
        * destruct ph'; cbn [snd].
          -- rewrite finalhandler_after_end by exact G3.
             cbn. rewrite G1, F3. auto.
          -- destruct (express5 E).
             ++ rewrite finalhandler_after_end by exact G3.
                cbn. rewrite G1, F3. auto.
             ++ destruct (@rejection_keeps (unhandledRejection app m) w3
                            Hls3 (Hur m)) as [L1 L2].
                change (wire (res (sys (snd ((emit_finish ;;
                                              lift (unhandledRejection app m))
                                               w3)))) =
                        [{| sentStatus := statusCode (res mid);
                            sentChunk := chunk; sentEncoding := encoding |}] /\
                        finishListeners (snd ((emit_finish ;;
                                               lift (unhandledRejection app m))
                                                w3)) = finishListeners w).
                rewrite L1, L2, G1, F3. auto.
          -- destruct (@logger_keeps (uncaughtException app m) w3 (Hue m))
               as [L1 L2].
             rewrite L1, L2, G1, F3. auto.
    - destruct (@finalhandler_responds None req w Hfw Hf Hs) as [G1 G2].
      rewrite Hw in G1. split; [exact G1 | exact G2]. }
  unfold bind. destruct (dispatch E app req h w) as [u w2]. cbn [snd] in *.
  destruct Hd as [Hd1 Hd2].
  destruct (@emit_finish_response w2) as [Hr _];
    [rewrite Hd2; exact Hls | ].
  rewrite Hr. exact Hd1.
Qed.

End Transparency.

Lemma served_wire svc E req h s :
  wire (res (served svc E req h s)) =
  handler_response E req h (at_next svc E req s).
Proof.
  rewrite at_next_entered. unfold served, serve. unfold bind at 1.
  destruct svc; cbn [app_of use Service1.app Service2.app start_line].
  - rewrite middleware1_enter.
    cbn [accept sys resEnd finishListeners finishEmitted]. fold (renewed s).
    rewrite fresh_start_line1.
    match goal with
    | |- context [dispatch E ?a req h ?w0] =>
        pose proof (@respond_wire E a req h w0) as H
    end.
    unfold bind in H. cbn [sys resEnd finishListeners] in H. apply H; auto.
    + apply logging_end_is_forwarding, node_end_forwards.
    + intros m s0. reflexivity.
    + intros m s0. reflexivity.
  - rewrite middleware2_enter.
    cbn [accept sys resEnd finishListeners finishEmitted app]. fold (renewed s).
    rewrite fresh_start_line2.
    match goal with
    | |- context [dispatch E ?a req h ?w0] =>
        pose proof (@respond_wire E a req h w0) as H
    end.
    unfold bind in H. cbn [sys resEnd finishListeners] in H. apply H; auto.
    + apply node_end_forwards.
    + constructor; [apply finish_listener_leaves_response | constructor].
    + intros m s0. reflexivity.
    + intros m s0. reflexivity.
Qed.

Lemma bare_wire svc E req h s :
  res s = fresh_response ->
  wire (res (sys (snd (serve E (bare (app_of svc E)) req h (accept s))))) =
  handler_response E req h s.
Proof.
  intro Hs. unfold serve, bare. cbn [use].
  assert (Hfresh : renewed s = s).
  { unfold renewed, with_res. rewrite <- Hs. destruct s; reflexivity. }
  match goal with
  | |- context [dispatch E ?a req h] =>
      pose proof (@respond_wire E a req h (accept s)) as H
  end.
  cbn [accept sys resEnd finishListeners] in H. fold (renewed s) in H.
  rewrite Hfresh in H. apply H; try (rewrite Hs; reflexivity).
  - apply node_end_forwards.
  - constructor.
  - intro m. apply (process_loggers_leave_response E svc m).
  - intro m. apply (process_loggers_leave_response E svc m).
Qed.

(** C8, as amended.  For every request and every handler, in both
    services, what is sent is what the handler alone asks for: the chunk and
    encoding of its first [res.end] with the status code it had set by then
    (or the final handler's answer), the same as when the handler runs from
    the same state with no middleware installed.  The middleware reaches
    [next()] with the response untouched; the listener of api-service-2
    leaves the response as it is.  The [end] installed by api-service-1
    calls the original [end] on the same response with the same chunk and
    encoding and returns what that returns, but it does not pass on a third
    argument: the original is called without the callback. *)
Theorem middleware_leaves_response_alone svc E req h s :
  res (at_next svc E req s) = fresh_response /\
  wire (res (served svc E req h s)) =
    handler_response E req h (at_next svc E req s) /\
  wire (res (served svc E req h s)) =
    wire (res (sys (snd (serve E (bare (app_of svc E)) req h
                           (accept (at_next svc E req s)))))) /\
  (forall start requestId originalEnd chunk encoding callback s0,
     exists s1,
       res s1 = res s0 /\
       Service1.logging_end E req start requestId originalEnd
         chunk encoding callback s0
       = originalEnd chunk encoding None s1) /\
  (forall start s0, res (snd (Service2.finish_listener E req start s0)) = res s0).
Proof.
  assert (Hres : res (at_next svc E req s) = fresh_response)
    by (rewrite at_next_entered; reflexivity).
  split; [exact Hres | split; [apply served_wire | split; [ | split]]].
  - rewrite served_wire, (@bare_wire svc E req h _ Hres). reflexivity.
  - intros start requestId originalEnd chunk encoding callback s0.
    exists (completed
              {| site := SiteComplete;
                 event := json_stringify
                            (Service1.completed_event req (statusCode (res s0))
                               (dateNow E (clockReads s0) - start) requestId
                               (dateNow E (S (clockReads s0)))) |} s0).
    split; reflexivity.
  - intros start s0. reflexivity.
Qed.

(** C8 fails as stated: the [end] installed by api-service-1 does not
    forward all its arguments.  A handler that calls
    [res.end(chunk, encoding, callback)] has its callback reach the native
    [end] without the middleware, and under api-service-2, but not under
    api-service-1, where it is never called. *)
Lemma override_drops_the_callback :
  let E := Sample.env (fun n => 1000 + Z.of_nat n) (fun _ => 0) in
  let req := Sample.get "/" [] in
  let h := Some end_with_callback in
  endCallbacks (res (sys (snd (serve E (bare (app_of ApiService1 E)) req h
                                 (accept Sample.idle))))) = ["done"] /\
  endCallbacks (res (served ApiService1 E req h Sample.idle)) = [] /\
  endCallbacks (res (served ApiService2 E req h Sample.idle)) = ["done"] /\
  wire (res (served ApiService1 E req h Sample.idle)) =
    [ {| sentStatus := 200; sentChunk := BText "ok";
         sentEncoding := Some "utf8" |} ] /\
  ~ forwards_every_argument E req.
Proof.
  intros E req h.
  split; [vm_compute; reflexivity | ].
  split; [vm_compute; reflexivity | ].
  split; [vm_compute; reflexivity | ].
  split; [vm_compute; reflexivity | ].
  intro H.
  destruct (H 0 "id" node_end (BText "ok") (Some "utf8") (Some "done")
              Sample.idle) as [s1 [Hr Heq]].
  assert (Hnative : endCallbacks
                      (res (snd (node_end (BText "ok") (Some "utf8")
                                   (Some "done") s1))) = ["done"]).
  { unfold node_end. rewrite Hr. reflexivity. }
  rewrite <- Heq in Hnative. vm_compute in Hnative. discriminate Hnative.
Qed.

(** *** C4: the two middlewares side by side *)

Section SideBySide.

Variable E : Env.
Variable req : Request.


End SideBySide.

Section SideBySideProof.

Variable E : Env.




End SideBySideProof.




(** * Further properties of the handlers and the middleware *)






Lemma get_is_not_head req : method req = "GET" ->
  String.eqb (method req) "HEAD" = false.
Proof. intros ->. reflexivity. Qed.

(** What [res.json] sends to a GET request without validators. *)
Lemma plain_send E req buffer code :
  method req = "GET" -> conditional req = false -> bodiless code = false ->
  send_status E req buffer code = code /\
  send_chunk req buffer (send_status E req buffer code) = buffer.
Proof.
  intros Hm Hc Hb. unfold send_status, send_chunk.
  rewrite (unconditional_not_fresh E req code buffer Hc).
  rewrite (get_is_not_head req Hm), Hb. auto.
Qed.

(** To a GET request without validators, the handler that calls the peer
    answers 200 with the peer's data as it came when the call succeeds, and
    500 with a fixed error body when it fails; the peer's status and the
    error's details stay in the log. *)
Theorem peer_call_outcome svc E req s :
  method req = "GET" -> conditional req = false ->
  wire (res (served svc E req (Some (peer_call svc)) s)) =
  [ match axiosGet E (remoteCalls s) with
    | inr response =>
        json_answer 200 [ ("message", JStr ("Called " ++ peer_name svc));
                          ("data", data response) ]
    | inl _ =>
        json_answer 500 [ ("error", JStr ("Failed to call " ++ peer_name svc)) ]
    end ].
Proof.
  intros Hm Hc. rewrite served_wire, at_next_entered.
  destruct svc; unfold handler_response, json_answer; cbn [peer_call peer_name].
  - walk1. destruct (axiosGet E (remoteCalls s)); walk1; send_paths;
      cbn [statusCode res sending with_res];
      match goal with
      | |- context [send_status E req ?b ?c] =>
          destruct (@plain_send E req b c Hm Hc eq_refl) as [-> ->]
      end; reflexivity.
  - walk2. destruct (axiosGet E (remoteCalls s)); walk2; send_paths;
      cbn [statusCode res sending with_res];
      match goal with
      | |- context [send_status E req ?b ?c] =>
          destruct (@plain_send E req b c Hm Hc eq_refl) as [-> ->]
      end; reflexivity.
Qed.

Lemma peer_call_outcome_witness :
  let E := Sample.env (fun n => 1000 + Z.of_nat n) (fun _ => 0) in
  let req := Sample.get "/test-service-2" [] in
  method req = "GET" /\ conditional req = false /\
  wire (res (served ApiService1 E req (Some (peer_call ApiService1))
               Sample.idle)) =
  [ json_answer 200 [ ("message", JStr "Called API Service 2");
                      ("data", JStr "API Service 2 is running") ] ].
Proof.
  intros E req.
  split; [reflexivity | split; [reflexivity | ]].
  exact (@peer_call_outcome ApiService1 E req Sample.idle eq_refl eq_refl).
Defined.





(** The override of api-service-1 logs on every call of [res.end]: a handler
    that calls it twice gets two completion lines for one answer, where the
    ['finish'] listener of api-service-2 writes one.  One answer is sent, by
    either service. *)
Theorem ending_twice E req s first :
  let h := Some (end_twice first) in
  let answer := {| sentStatus := 200; sentChunk := first; sentEncoding := None |} in
  exists lines1 lines2,
    console (served ApiService1 E req h s) = (console s ++ lines1)%list /\
    console (served ApiService2 E req h s) = (console s ++ lines2)%list /\
    count_site SiteComplete lines1 = 2%nat /\
    count_site SiteComplete lines2 = 1%nat /\
    wire (res (served ApiService1 E req h s)) = [answer] /\
    wire (res (served ApiService2 E req h s)) = [answer].
Proof.
  intros h answer. unfold h, answer, served, serve, end_twice.
  cbn [app_of use Service1.app Service2.app]. unfold bind.
  rewrite !middleware1_enter, !middleware2_enter.
  cbn -[start_line1 start_line2].
  exists [start_line1 E req (renewed s);
          complete_line1 E req (id_of E req (renewed s)) (clockReads s)
            (entry1 E req s);
          complete_line1 E req (id_of E req (renewed s)) (clockReads s)
            (sent first None None
               (completed
                  (complete_line1 E req (id_of E req (renewed s)) (clockReads s)
                     (entry1 E req s)) (entry1 E req s)))].
  eexists.
  split; [rewrite <- !app_assoc; reflexivity | ].
  split; [rewrite <- !app_assoc; reflexivity | ].
  repeat split; reflexivity.
Qed.

Lemma element_of_valid_draw r :
  Double.unit_interval r ->
  exists d, Service1.element (Service1.delay_index r) = JNum d /\
            In d Service1.delays.
Proof.
  intro Hu. pose proof (DoubleFacts.mul5_below Hu) as Hlt.
  pose proof Hu as [[Hr _] _].
  assert (Hone : 0 < Double.one) by (apply Z.pow_pos_nonneg; lia).
  assert (Hpos : 0 <= Double.mul r 5)
    by (apply DoubleFacts.round53_nonneg; lia).
  assert (Hidx : 0 <= Service1.delay_index r < 5).
  { unfold Service1.delay_index, Double.floor.
    change (Z.of_nat (List.length Service1.delays)) with 5. split.
    - apply Z.div_pos; lia.
    - apply Z.div_lt_upper_bound; lia. }
  assert (Hcase : Service1.delay_index r = 0 \/ Service1.delay_index r = 1 \/
                  Service1.delay_index r = 2 \/ Service1.delay_index r = 3 \/
                  Service1.delay_index r = 4) by lia.
  destruct Hcase as [-> | [-> | [-> | [-> | ->]]]]; cbn; eexists; split;
    try reflexivity; auto 6.
Qed.

(** /heavy-task, for a GET request without validators: with its first draw
    a double in [0, 1) the handler picks a delay [d] of the table, logs it on
    entry, and answers after the timer: 500 with
    [{"error": "Internal Server Error"}] exactly when its second draw is
    below 3602879701896397 / 2^54, the double written [0.2], else 200 with
    the message "Completed in [d]ms" for the same [d]. *)
Theorem heavy_task_outcome E req s :
  let first := mathRandom E (if drew req then S (randomDraws s) else randomDraws s) in
  let second := mathRandom E (S (if drew req then S (randomDraws s) else randomDraws s)) in
  let final := served ApiService1 E req (Some Service1.heavy_task) s in
  Double.unit_interval first ->
  method req = "GET" -> conditional req = false ->
  exists d entryLine,
    In d Service1.delays /\
    In entryLine (console final) /\
    site entryLine = SiteHandler /\
    field "delay" (event entryLine) = Some (JNum d) /\
    field "message" (event entryLine) =
      Some (JStr ("Starting heavy task with delay: " ++ decimal d ++ "ms")) /\
    wire (res final) =
      [ if second <? 3602879701896397 * 2 ^ 1020
        then json_answer 500 [("error", JStr "Internal Server Error")]
        else json_answer 200 [("message", JStr ("Completed in " ++ decimal d ++ "ms"))] ].
Proof.
  intros first second final Hu Hm Hc.
  destruct literals_as_doubles as [Hlit _]. rewrite <- Hlit.
  destruct (element_of_valid_draw Hu) as [d [Hd Hin]].
  exists d.
  exists {| site := SiteHandler;
            event := [ ("level", JStr "info");
                       ("message", JStr ("Starting heavy task with delay: "
                                         ++ decimal d ++ "ms"));
                       ("delay", JNum d);
                       ("requestId", JNum (dateNow E (S (S (clockReads s)))));
                       ("route", JStr "/heavy-task");
                       ("service", JStr Service1.name);
                       ("timestamp", JIso (dateNow E (S (S (S (clockReads s)))))) ] |}.
  split; [exact Hin | ].
  split; [ | split; [reflexivity | split; [reflexivity | split; [reflexivity | ]]]].
  - unfold final.
    change (Some Service1.heavy_task)
      with (option_map Service1.handler (Some Service1.HeavyTask)).
    through_service1. walk1. fold first second. rewrite Hd.
    cbn -[res_json res_send Double.of_decimal Z.ltb id_of decimal].
    destruct (second <? Double.of_decimal 2 1);
      cbn -[res_json res_send Double.of_decimal Z.ltb id_of decimal];
      send_paths; cbn -[id_of decimal send_status send_chunk];
      rewrite !in_app_iff; cbn [In]; auto 10.
  - unfold final. rewrite served_wire, at_next_entered.
    unfold handler_response, json_answer. walk1. fold first second. rewrite Hd.
    cbn -[res_json res_send Double.of_decimal Z.ltb id_of decimal start_line].
    destruct (second <? Double.of_decimal 2 1);
      cbn -[res_json res_send Double.of_decimal Z.ltb id_of decimal start_line];
      send_paths; cbn [statusCode res sending with_res];
      match goal with
      | |- context [send_status E req ?b ?c] =>
          destruct (@plain_send E req b c Hm Hc eq_refl) as [-> ->]
      end; reflexivity.
Qed.

Lemma heavy_task_outcome_witness :
  let E := Sample.env (fun n => 1000 + Z.of_nat n) (fun _ => Double.one / 2) in
  let req := Sample.get "/heavy-task" [("x-request-id", "abc123")] in
  let final := served ApiService1 E req (Some Service1.heavy_task) Sample.idle in
  Double.unit_interval (Double.one / 2) /\
  method req = "GET" /\ conditional req = false /\
  exists d entryLine,
    In d Service1.delays /\
    In entryLine (console final) /\
    site entryLine = SiteHandler /\
    field "delay" (event entryLine) = Some (JNum d) /\
    field "message" (event entryLine) =
      Some (JStr ("Starting heavy task with delay: " ++ decimal d ++ "ms")) /\
    wire (res final) =
      [ if Double.one / 2 <? 3602879701896397 * 2 ^ 1020
        then json_answer 500 [("error", JStr "Internal Server Error")]
        else json_answer 200 [("message", JStr ("Completed in " ++ decimal d ++ "ms"))] ].
Proof.
  intros E req final.
  assert (H : Double.unit_interval (Double.one / 2)).
  { apply DoubleFacts.unit_intervalb_true. vm_compute. reflexivity. }
  split; [exact H | split; [reflexivity | split; [reflexivity | ]]].
  exact (@heavy_task_outcome E req Sample.idle H eq_refl eq_refl).
Defined.

Lemma start_line1_tagged E req s : tagged "api-service-1" (start_line1 E req s).
Proof.
  unfold tagged, stamp, start_line1, Service1.started_event, json_stringify,
    of_option.
  destruct (ip req), (req_get "User-Agent" req); cbn; split;
    try reflexivity; discriminate.
Qed.

Lemma start_line2_tagged E req s : tagged "api-service-2" (start_line2 E req s).
Proof.
  unfold tagged, stamp, start_line2, Service2.started_event, json_stringify,
    of_option.
  destruct (ip req), (req_get "User-Agent" req); cbn; split;
    try reflexivity; discriminate.
Qed.

Ltac all_tagged :=
  repeat (apply Forall_cons;
          [first [ apply start_line1_tagged
                 | apply start_line2_tagged
                 | split; [reflexivity | cbn; discriminate] ] | ]);
  try apply Forall_nil.

Ltac the_lines :=
  eexists; split; [rewrite <- !app_assoc; cbn [app]; reflexivity | ].

(** Every line api-service-2 writes for a request, whatever the route,
    names the service as api-service-2 and carries a timestamp. *)
Theorem service2_lines_are_tagged E req route s :
  exists lines,
    console (served ApiService2 E req (option_map Service2.handler route) s)
      = (console s ++ lines)%list /\
    Forall (tagged "api-service-2") lines.
Proof.
  through_service2.
  destruct route as [[ | | | | ] | ]; paths2; the_lines; all_tagged.
Qed.

Ltac all_stamped :=
  repeat (apply Forall_cons;
          [cbv beta;
           first [ apply (proj2 (start_line1_tagged _ _ _))
                 | apply (proj2 (start_line2_tagged _ _ _))
                 | let H := fresh in intro H; cbn in H; discriminate H ] | ]);
  try apply Forall_nil.

Ltac all_named :=
  repeat (apply Forall_cons;
          [cbv beta;
           first [ apply (proj1 (start_line1_tagged _ _ _))
                 | reflexivity ] | ]);
  try apply Forall_nil.

(** Every line api-service-1 writes for a request carries a timestamp.  The
    start line and the completion line name the service as api-service-1 on
    every route, and so do the lines of the handlers, with one exception:
    the one line the /info handler writes names it "API Service 1". *)
Theorem service1_lines_are_tagged E req route s :
  exists lines,
    console (served ApiService1 E req (option_map Service1.handler route) s)
      = (console s ++ lines)%list /\
    Forall (fun l => stamp l <> None) lines /\
    Forall (fun l =>
              field "service" (event l) =
              Some (JStr match route, site l with
                         | Some Service1.ServiceInfo, SiteHandler =>
                             "API Service 1"
                         | _, _ => "api-service-1"
                         end)) lines /\
    match route with
    | Some Service1.ServiceInfo => count_site SiteHandler lines = 1%nat
    | _ => True
    end.
Proof.
  through_service1.
  destruct route as [[ | | | | ] | ]; paths1; the_lines;
    (split; [all_stamped | split; [all_named | reflexivity || exact I]]).
Qed.

Lemma start_line1_stamp E req s :
  stamp (start_line1 E req s) = Some (dateNow E (S (clockReads s))).
Proof.
  unfold stamp. destruct (start_line1_fields E req s) as [_ [_ H]].
  now rewrite H.
Qed.

Lemma start_line2_stamp E req s :
  stamp (start_line2 E req s) = Some (dateNow E (S (clockReads s))).
Proof.
  unfold stamp. destruct (start_line2_fields E req s) as [_ [_ H]].
  now rewrite H.
Qed.

Ltac in_time_order Hclock :=
  cbn [timestamps];
  rewrite ?start_line1_stamp, ?start_line2_stamp;
  cbn -[Z.le Z.sub];
  repeat split; try reflexivity;
  try (apply Hclock; cbn; lia).

(** With a wall clock that does not go backwards, the lines api-service-1
    writes for a request, on every route, all carry a timestamp and are
    written in timestamp order. *)
Theorem service1_lines_in_time_order E req route s :
  steady E ->
  exists lines,
    console (served ApiService1 E req (option_map Service1.handler route) s)
      = (console s ++ lines)%list /\
    List.length (timestamps lines) = List.length lines /\
    nondecreasing (timestamps lines).
Proof.
  intro Hclock. through_service1.
  destruct route as [[ | | | | ] | ]; paths1; the_lines;
    in_time_order Hclock.
Qed.

(** The same for api-service-2. *)
Theorem service2_lines_in_time_order E req route s :
  steady E ->
  exists lines,
    console (served ApiService2 E req (option_map Service2.handler route) s)
      = (console s ++ lines)%list /\
    List.length (timestamps lines) = List.length lines /\
    nondecreasing (timestamps lines).
Proof.
  intro Hclock. through_service2.
  destruct route as [[ | | | | ] | ]; paths2; the_lines;
    in_time_order Hclock.
Qed.

Lemma service1_lines_in_time_order_witness :
  steady (Sample.env (fun n => 1000 + Z.of_nat n) (fun _ => 0)) /\
  exists lines,
    console (served ApiService1 (Sample.env (fun n => 1000 + Z.of_nat n) (fun _ => 0))
               (Sample.get "/heavy-task" [])
               (option_map Service1.handler (Some Service1.HeavyTask)) Sample.idle)
      = (console Sample.idle ++ lines)%list /\
    List.length (timestamps lines) = List.length lines /\
    nondecreasing (timestamps lines).
Proof.
  split; [apply sample_clock_steady | ].
  apply service1_lines_in_time_order. apply sample_clock_steady.
Defined.

Lemma service2_lines_in_time_order_witness :
  steady (Sample.env (fun n => 1000 + Z.of_nat n) (fun _ => 0)) /\
  exists lines,
    console (served ApiService2 (Sample.env (fun n => 1000 + Z.of_nat n) (fun _ => 0))
               (Sample.get "/compute" [])
               (option_map Service2.handler (Some Service2.ComputeTask)) Sample.idle)
      = (console Sample.idle ++ lines)%list /\
    List.length (timestamps lines) = List.length lines /\
    nondecreasing (timestamps lines).
Proof.
  split; [apply sample_clock_steady | ].
  apply service2_lines_in_time_order. apply sample_clock_steady.
Defined.

(** The lines the /heavy-task handler writes carry as [requestId] the
    number [Date.now()] returned when the handler started, not the
    correlation identifier: that string is on the two lines of the
    middleware only. *)
Theorem heavy_task_has_its_own_request_id E req s :
  exists lines,
    console (served ApiService1 E req (Some Service1.heavy_task) s)
      = (console s ++ lines)%list /\
    Forall (fun l =>
              field "requestId" (event l) =
              match site l with
              | SiteHandler => Some (JNum (dateNow E (2 + clockReads s)))
              | _ => Some (JStr (id_of E req s))
              end) lines.
Proof.
  change (Some Service1.heavy_task)
    with (option_map Service1.handler (Some Service1.HeavyTask)).
  through_service1. paths1.
  all: the_lines.
  all: repeat (apply Forall_cons;
               [cbv beta;
                first [ rewrite fresh_start_line1;
                        apply (proj1 (proj2 (start_line1_fields E req s)))
                      | reflexivity
                      | cbn -[id_of];
                        rewrite (@id_of_draws E req (renewed s) s) by reflexivity;
                        reflexivity ] | ]).
  all: apply Forall_nil.
Qed.

(** The start line has an [ip] and a [userAgent] property exactly when the
    request has an address and a User-Agent header: a missing one leaves no
    property behind, not a null. *)
Theorem start_line_optional_properties svc E req s :
  exists line,
    console (at_next svc E req s) = (console s ++ [line])%list /\
    field "ip" (event line) = option_map JStr (ip req) /\
    field "userAgent" (event line) = option_map JStr (req_get "User-Agent" req) /\
    field "method" (event line) = Some (JStr (method req)) /\
    field "url" (event line) = Some (JStr (url req)).
Proof.
  exists (start_line svc E req s). rewrite at_next_entered.
  split; [reflexivity | ].
  destruct svc; cbn [start_line];
    unfold start_line1, start_line2, Service1.started_event,
      Service2.started_event, json_stringify, of_option;
    destruct (ip req), (req_get "User-Agent" req); cbn; auto.
Qed.



(** ** What Express does not catch *)



